(** * dFileSystem storage app: models, serializers and views

    A shallow embedding of [core_apps/storage/models.py],
    [core_apps/storage/serializers.py] and [core_apps/storage/views.py].

    Every database table is the list of its rows in insertion order.  A model
    instance is a row value held in memory: it is a copy of a row, and the
    two may differ until [save] writes the named fields back.  Methods that
    touch the database take the instance and the tables they use, and return
    the instance together with the new tables, or the exception they raise.

    The instances are those Django builds from a row: what a queryset,
    [get_object], a foreign key or [objects.create] hands out, as every
    instance in [views.py] is.  Their [_state.adding] is False, so
    [save(update_fields=...)] is an UPDATE.  An instance built in memory and
    never saved is outside the embedding: its fields may be unset, and
    saving it inserts a row. *)

From stdpp Require Import base decidable option list numbers strings sorting.

(** ** Common types *)

(** [UUIDField] primary keys, user keys and timestamps. *)
Definition uuid := N.
Definition user_id := N.
Definition datetime := Z.
Bind Scope N_scope with uuid user_id.
Bind Scope Z_scope with datetime.

(** The exceptions the modelled code can raise. *)
Inductive exn :=
  | ValidationError (errors : list (string * string))
  | Http404
  | DoesNotExist
  | IntegrityError
  | DatabaseError
  | DataError
  | ValueError.

Inductive result (A : Type) :=
  | Ok (a : A)
  | Err (e : exn).
Arguments Ok {A} a.
Arguments Err {A} e.

#[global] Instance result_ret : MRet result := λ A, Ok.
#[global] Instance result_bind : MBind result := λ A B f m,
  match m with
  | Ok a => f a
  | Err e => Err e
  end.

(** [QuerySet.get(pk=...)] on a missing row. *)
Definition or_raise {A} (e : exn) (o : option A) : result A :=
  match o with
  | Some a => Ok a
  | None => Err e
  end.

(** ** Row-level SQL *)

(** [UPDATE table SET ... WHERE P]: every row that satisfies [P] is
    rewritten by [f], the others are left as they are. *)
Definition update_where {A} (P : A → Prop) `{∀ r, Decision (P r)}
    (f : A → A) (table : list A) : list A :=
  (λ r, if decide (P r) then f r else r) <$> table.

(** [instance.save(update_fields=[...])] on an instance built from a row: an
    UPDATE of the named columns of the row whose key is the instance's;
    Django raises [DatabaseError] when the statement affects no row, which
    is when the row was removed after the instance was read. *)
Definition save_fields {A} (pk_of : A → uuid) (pk : uuid)
    (f : A → A) (table : list A) : result (list A) :=
  if decide (Exists (λ r, pk_of r = pk) table)
  then Ok (update_where (λ r, pk_of r = pk) f table)
  else Err DatabaseError.

(** [QuerySet.get(pk=pk)] / a foreign key dereference. *)
Definition get_by_pk {A} (pk_of : A → uuid) (pk : uuid) (table : list A)
    : option A :=
  head (filter (λ r, pk_of r = pk) table).

(** ** models.py: StorageNode *)

Module StorageNode.

Record t := {
  id : uuid;
  name : string;
  host : string;
  port : N;
  capacity : Z;
  available : Z;
  is_active : bool;
  last_heartbeat : datetime;
  created_at : datetime
}.

Definition set_last_heartbeat (v : datetime) (r : t) : t :=
  {| id := id r; name := name r; host := host r; port := port r;
     capacity := capacity r; available := available r;
     is_active := is_active r; last_heartbeat := v;
     created_at := created_at r |}.

Definition set_available (v : Z) (r : t) : t :=
  {| id := id r; name := name r; host := host r; port := port r;
     capacity := capacity r; available := v;
     is_active := is_active r; last_heartbeat := last_heartbeat r;
     created_at := created_at r |}.

Definition set_is_active (v : bool) (r : t) : t :=
  {| id := id r; name := name r; host := host r; port := port r;
     capacity := capacity r; available := available r;
     is_active := v; last_heartbeat := last_heartbeat r;
     created_at := created_at r |}.

Definition get (pk : uuid) (nodes : list t) : option t :=
  get_by_pk id pk nodes.

(** [update_heartbeat]: [save(update_fields=['last_heartbeat'])]. *)
Definition update_heartbeat (self : t) (now : datetime) (nodes : list t)
    : result (t * list t) :=
  let self := set_last_heartbeat now self in
  nodes ← save_fields id (id self)
            (set_last_heartbeat (last_heartbeat self)) nodes;
  Ok (self, nodes).

(** The largest value a [BigIntegerField] column takes. *)
Definition BIGINT_MAX : Z := 9223372036854775807.

(** [update_storage_metrics]:
<<
    self.available = max(0, self.capacity - used_space)
    self.is_active = self.available > 0
    self.save(update_fields=['available', 'is_active'])
>>
    [available] is a [BigIntegerField]: the UPDATE is refused with
    [DataError] when the value is above what the column holds (it is never
    below zero). *)
Definition update_storage_metrics (self : t) (used_space : Z)
    (nodes : list t) : result (t * list t) :=
  let self := set_available (Z.max 0 (capacity self - used_space)) self in
  let self := set_is_active (bool_decide (0 < available self)%Z) self in
  if decide (BIGINT_MAX < available self)%Z then Err DataError
  else
    nodes ← save_fields id (id self)
              (λ r, set_is_active (is_active self)
                      (set_available (available self) r)) nodes;
    Ok (self, nodes).

End StorageNode.

(** ** models.py: Chunk *)

Module Chunk.

Inductive ChunkStatus := UPLOADING | COMPLETED | CORRUPTED | DELETED.

#[global] Instance ChunkStatus_eq_dec : EqDecision ChunkStatus.
Proof. solve_decision. Defined.

(** [size] and [chunk_number] are [PositiveIntegerField]s: the column
    holds no negative value. *)
Record t := {
  id : uuid;
  file : uuid;
  storage_node : uuid;
  object_key : string;
  chunk_number : N;
  size : N;
  checksum : option string;
  is_primary : bool;
  status : ChunkStatus;
  stored_checksum : option string;
  last_verified_at : option datetime;
  created_at : datetime;
  updated_at : datetime
}.

Definition set_is_primary (v : bool) (r : t) : t :=
  {| id := id r; file := file r; storage_node := storage_node r;
     object_key := object_key r; chunk_number := chunk_number r;
     size := size r; checksum := checksum r; is_primary := v;
     status := status r; stored_checksum := stored_checksum r;
     last_verified_at := last_verified_at r; created_at := created_at r;
     updated_at := updated_at r |}.

Definition set_status (v : ChunkStatus) (r : t) : t :=
  {| id := id r; file := file r; storage_node := storage_node r;
     object_key := object_key r; chunk_number := chunk_number r;
     size := size r; checksum := checksum r; is_primary := is_primary r;
     status := v; stored_checksum := stored_checksum r;
     last_verified_at := last_verified_at r; created_at := created_at r;
     updated_at := updated_at r |}.

Definition set_stored_checksum (v : option string) (r : t) : t :=
  {| id := id r; file := file r; storage_node := storage_node r;
     object_key := object_key r; chunk_number := chunk_number r;
     size := size r; checksum := checksum r; is_primary := is_primary r;
     status := status r; stored_checksum := v;
     last_verified_at := last_verified_at r; created_at := created_at r;
     updated_at := updated_at r |}.

Definition set_last_verified_at (v : option datetime) (r : t) : t :=
  {| id := id r; file := file r; storage_node := storage_node r;
     object_key := object_key r; chunk_number := chunk_number r;
     size := size r; checksum := checksum r; is_primary := is_primary r;
     status := status r; stored_checksum := stored_checksum r;
     last_verified_at := v; created_at := created_at r;
     updated_at := updated_at r |}.

Definition get (pk : uuid) (chunks : list t) : option t :=
  get_by_pk id pk chunks.

(** The rows [mark_as_primary] demotes:
<<
    Chunk.objects.select_for_update().filter(
        file=self.file, chunk_number=self.chunk_number, is_primary=True,
    ).exclude(pk=self.pk)
>> *)
Definition other_primaries (self : t) (r : t) : Prop :=
  file r = file self ∧ chunk_number r = chunk_number self
  ∧ is_primary r = true ∧ id r ≠ id self.

#[global] Instance other_primaries_dec self r :
  Decision (other_primaries self r).
Proof. unfold other_primaries. apply _. Defined.

(** [mark_as_primary], inside [transaction.atomic()]: an exception rolls
    the demotion back, so [Err] stands for the unchanged table.  The filter
    [file=self.file] compares the foreign key.
<<
    ....update(is_primary=False)
    if not self.is_primary:
        self.is_primary = True
        self.save(update_fields=['is_primary'])
>>
    The test reads the flag of the instance in memory. *)
Definition mark_as_primary (self : t) (chunks : list t)
    : result (t * list t) :=
  let chunks := update_where (other_primaries self)
                  (set_is_primary false) chunks in
  if negb (is_primary self) then
    let self := set_is_primary true self in
    chunks ← save_fields id (id self)
               (set_is_primary (is_primary self)) chunks;
    Ok (self, chunks)
  else Ok (self, chunks).

(** [verify_checksum]:
<<
    is_valid = self.checksum == calculated_checksum
    if not is_valid:
        self.status = self.ChunkStatus.CORRUPTED
        self.save(update_fields=['status'])
    return is_valid
>> *)
Definition verify_checksum (self : t) (calculated_checksum : option string)
    (chunks : list t) : result (bool * t * list t) :=
  let is_valid := bool_decide (checksum self = calculated_checksum) in
  if negb is_valid then
    let self := set_status CORRUPTED self in
    chunks ← save_fields id (id self) (set_status (status self)) chunks;
    Ok (is_valid, self, chunks)
  else Ok (is_valid, self, chunks).

Definition is_corrupted (self : t) : bool :=
  bool_decide (status self = CORRUPTED).

(** [sum(chunk.size for chunk in Chunk.objects.filter(storage_node=n))]. *)
Definition used_space (node : uuid) (chunks : list t) : Z :=
  foldl (λ acc c, acc + Z.of_N (size c))%Z 0%Z
        (filter (λ c, storage_node c = node) chunks).

(** What [delete] reads of the instance it is called on: its key, which
    Django sets to None on an instance once it was deleted, the foreign key
    [storage_node_id], and the StorageNode instance the chunk holds for that
    foreign key, if it holds one: the node that was loaded with the chunk or
    assigned to it, or the one an earlier [self.storage_node] read.  That
    instance is not read again, so its fields may be older than the row. *)
Record instance := {
  pk : option uuid;
  storage_node_id : uuid;
  storage_node_cache : option StorageNode.t
}.

(** The instance a queryset builds from a row: no node is held yet. *)
Definition from_db (row : t) : instance :=
  {| pk := Some (id row); storage_node_id := storage_node row;
     storage_node_cache := None |}.

(** [self.storage_node]: the instance held, or else the row the foreign key
    points to, read now. *)
Definition get_storage_node (self : instance) (nodes : list StorageNode.t)
    : result StorageNode.t :=
  match storage_node_cache self with
  | Some node => Ok node
  | None =>
      or_raise DoesNotExist (StorageNode.get (storage_node_id self) nodes)
  end.

(** [delete]:
<<
    storage_node = self.storage_node
    super().delete()
    if storage_node:
        used_space = sum(chunk.size for chunk in
                         Chunk.objects.filter(storage_node=storage_node))
        storage_node.update_storage_metrics(used_space)
>>
    [Model.delete] raises [ValueError] on an instance without a key;
    otherwise it removes the row of that key, if there is one, and sets the
    key of the instance to None.  A model instance is always truthy, so the
    test never fails.  The method is not atomic: when
    [update_storage_metrics] raises, the row of the chunk is gone all the
    same, so the tables are returned beside the result. *)
Definition delete (self : instance) (chunks : list t)
    (nodes : list StorageNode.t)
    : result instance * (list t * list StorageNode.t) :=
  match get_storage_node self nodes with
  | Err e => (Err e, (chunks, nodes))
  | Ok storage_node =>
      match pk self with
      | None => (Err ValueError, (chunks, nodes))
      | Some key =>
          let chunks := filter (λ c, id c ≠ key) chunks in
          let used_space :=
            used_space (StorageNode.id storage_node) chunks in
          match StorageNode.update_storage_metrics storage_node used_space
                  nodes with
          | Err e => (Err e, (chunks, nodes))
          | Ok (storage_node, nodes) =>
              (Ok {| pk := None; storage_node_id := storage_node_id self;
                     storage_node_cache := Some storage_node |},
               (chunks, nodes))
          end
      end
  end.

End Chunk.

(** ** models.py: File *)

Module File.

Record t := {
  id : uuid;
  name : string;
  size : Z;
  checksum : string;
  content_type : string;
  user : option user_id;
  created_at : datetime;
  updated_at : datetime;
  deleted_at : option datetime;
  is_deleted : bool
}.

Definition set_size (v : Z) (r : t) : t :=
  {| id := id r; name := name r; size := v; checksum := checksum r;
     content_type := content_type r; user := user r;
     created_at := created_at r; updated_at := updated_at r;
     deleted_at := deleted_at r; is_deleted := is_deleted r |}.

Definition set_checksum (v : string) (r : t) : t :=
  {| id := id r; name := name r; size := size r; checksum := v;
     content_type := content_type r; user := user r;
     created_at := created_at r; updated_at := updated_at r;
     deleted_at := deleted_at r; is_deleted := is_deleted r |}.

Definition set_deleted_at (v : option datetime) (r : t) : t :=
  {| id := id r; name := name r; size := size r; checksum := checksum r;
     content_type := content_type r; user := user r;
     created_at := created_at r; updated_at := updated_at r;
     deleted_at := v; is_deleted := is_deleted r |}.

Definition set_is_deleted (v : bool) (r : t) : t :=
  {| id := id r; name := name r; size := size r; checksum := checksum r;
     content_type := content_type r; user := user r;
     created_at := created_at r; updated_at := updated_at r;
     deleted_at := deleted_at r; is_deleted := v |}.

Definition get (pk : uuid) (files : list t) : option t :=
  get_by_pk id pk files.

(** [Meta.constraints]: [UniqueConstraint(fields=['name', 'checksum',
    'user'])].  [row] clashes with another row of the table that carries
    the same three values; a NULL [user] never clashes. *)
Definition unique_clash (row : t) (r : t) : Prop :=
  id r ≠ id row ∧ name r = name row ∧ checksum r = checksum row
  ∧ is_Some (user row) ∧ user r = user row.

#[global] Instance unique_clash_dec row r : Decision (unique_clash row r).
Proof. unfold unique_clash. apply _. Defined.

Definition unique_file_name_checksum_user (files : list t) : Prop :=
  ∀ r1 r2, r1 ∈ files → r2 ∈ files → ¬ unique_clash r1 r2.

(** [File.objects.create(...)]: an INSERT; a taken primary key or a clash
    with the unique constraint raises [IntegrityError]. *)
Definition create (row : t) (files : list t) : result (list t) :=
  if decide (Exists (λ r, id r = id row) files) then Err IntegrityError
  else if decide (Exists (unique_clash row) files) then Err IntegrityError
  else Ok (files ++ [row]).

(** [Meta.ordering = ['-created_at']] and [QuerySet.first()]. *)
Definition newer_or_same (a b : t) : Prop := (created_at b ≤ created_at a)%Z.

#[global] Instance newer_or_same_dec a b : Decision (newer_or_same a b).
Proof. unfold newer_or_same. apply _. Defined.

Definition first (rows : list t) : option t :=
  head (merge_sort newer_or_same rows).

(** [soft_delete]:
<<
    self.is_deleted = True
    self.deleted_at = timezone.now()
    self.save(update_fields=['is_deleted', 'deleted_at'])
>> *)
Definition soft_delete (self : t) (now : datetime) (files : list t)
    : result (t * list t) :=
  let self := set_is_deleted true self in
  let self := set_deleted_at (Some now) self in
  files ← save_fields id (id self)
            (λ r, set_deleted_at (deleted_at self)
                    (set_is_deleted (is_deleted self) r)) files;
  Ok (self, files).

(** [restore]:
<<
    self.is_deleted = False
    self.deleted_at = None
    self.save(update_fields=['is_deleted', 'deleted_at'])
>> *)
Definition restore (self : t) (files : list t) : result (t * list t) :=
  let self := set_is_deleted false self in
  let self := set_deleted_at None self in
  files ← save_fields id (id self)
            (λ r, set_deleted_at (deleted_at self)
                    (set_is_deleted (is_deleted self) r)) files;
  Ok (self, files).

(** [is_available]: [not self.is_deleted and self.chunks.exists()], where
    [chunks] is the reverse side of [Chunk.file]. *)
Definition is_available (self : t) (chunks : list Chunk.t) : bool :=
  negb (is_deleted self)
  && bool_decide (Exists (λ c, Chunk.file c = id self) chunks).

(** [save(update_fields=['size', 'checksum'])]: the UPDATE is refused with
    [IntegrityError] when the rewritten row would clash with another one
    under the unique constraint. *)
Definition save_size_checksum (self : t) (files : list t)
    : result (list t) :=
  let updated r := set_checksum (checksum self) (set_size (size self) r) in
  if decide (Exists (λ r, id r = id self
                          ∧ Exists (unique_clash (updated r)) files) files)
  then Err IntegrityError
  else save_fields id (id self) updated files.

End File.

(** ** models.py: FileVersion *)

Module FileVersion.

Record t := {
  id : uuid;
  file : uuid;
  version_number : N;
  size : Z;
  checksum : string;
  created_at : datetime;
  created_by : option user_id;
  notes : string
}.

Definition get (pk : uuid) (versions : list t) : option t :=
  get_by_pk id pk versions.

(** [file_obj.versions]: the reverse side of [FileVersion.file]. *)
Definition of_file (f : uuid) (versions : list t) : list t :=
  filter (λ v, file v = f) versions.

(** The largest value a [PositiveIntegerField] column takes. *)
Definition MAX_POSITIVE_INTEGER : N := 2147483647.

(** [FileVersion.objects.create(...)]: an INSERT; [Meta.unique_together =
    ('file', 'version_number')] and the primary key raise
    [IntegrityError], a number the column cannot hold [DataError]. *)
Definition create (row : t) (versions : list t) : result (list t) :=
  if decide (MAX_POSITIVE_INTEGER < version_number row)%N then Err DataError
  else if decide (Exists (λ v, id v = id row) versions)
  then Err IntegrityError
  else if decide (Exists (λ v, file v = file row
                               ∧ version_number v = version_number row)
                         versions)
  then Err IntegrityError
  else Ok (versions ++ [row]).

(** [restore]; [self.file] reads the row the foreign key points to:
<<
    self.file.size = self.size
    self.file.checksum = self.checksum
    self.file.save(update_fields=['size', 'checksum'])
    return self.file
>> *)
Definition restore (self : t) (files : list File.t)
    : result (File.t * list File.t) :=
  f ← or_raise DoesNotExist (File.get (file self) files);
  let f := File.set_size (size self) f in
  let f := File.set_checksum (checksum self) f in
  files ← File.save_size_checksum f files;
  Ok (f, files).

End FileVersion.

(** ** The database *)

Record DB := {
  nodes : list StorageNode.t;
  files : list File.t;
  chunks : list Chunk.t;
  versions : list FileVersion.t
}.

Definition set_nodes (v : list StorageNode.t) (db : DB) : DB :=
  {| nodes := v; files := files db; chunks := chunks db;
     versions := versions db |}.

Definition set_files (v : list File.t) (db : DB) : DB :=
  {| nodes := nodes db; files := v; chunks := chunks db;
     versions := versions db |}.

Definition set_chunks (v : list Chunk.t) (db : DB) : DB :=
  {| nodes := nodes db; files := files db; chunks := v;
     versions := versions db |}.

Definition set_versions (v : list FileVersion.t) (db : DB) : DB :=
  {| nodes := nodes db; files := files db; chunks := chunks db;
     versions := v |}.

(** [File] does not override [delete]: [file.delete()] is Django's
    [Model.delete], which removes the row and, before it, the rows that point
    to the file through a foreign key declared with
    [on_delete=models.CASCADE]: [Chunk.file] and [FileVersion.file].  Django
    removes those rows itself: [Chunk.delete] is not called for them. *)
Definition delete_file (self : File.t) (db : DB) : DB :=
  {| nodes := nodes db;
     files := filter (λ f, File.id f ≠ File.id self) (files db);
     chunks := filter (λ c, Chunk.file c ≠ File.id self) (chunks db);
     versions :=
       filter (λ v, FileVersion.file v ≠ File.id self) (versions db) |}.

(** ** serializers.py: FileUploadSerializer *)

(** What the request carries for an integer field: nothing, something that
    does not parse as an integer, or an integer. *)
Inductive field_input :=
  | Omitted
  | Malformed
  | IntIn (z : Z).

(** [request.FILES['file']]: an uploaded file. *)
Record UploadedFile := {
  upload_name : string;
  upload_size : Z;
  upload_content_type : string;
  upload_content : list Byte.byte
}.

(** [rest_framework.serializers.IntegerField(min_value, max_value,
    default)]: a missing value takes the default without being validated,
    anything else must parse and pass both bounds. *)
Definition IntegerField (min_value max_value default : option Z)
    (data : field_input) : list string + Z :=
  match data with
  | Omitted =>
      match default with
      | Some d => inr d
      | None => inl ["required"]
      end
  | Malformed => inl ["invalid"]
  | IntIn z =>
      let errors :=
        (match max_value with
         | Some hi => if decide (hi < z)%Z then ["max_value"] else []
         | None => []
         end)
        ++ (match min_value with
            | Some lo => if decide (z < lo)%Z then ["min_value"] else []
            | None => []
            end) in
      match errors with
      | [] => inr z
      | _ => inl errors
      end
  end.

(** [rest_framework.serializers.FileField()]: required, and an upload
    without a name or without content is refused. *)
Definition FileField (data : option UploadedFile)
    : list string + UploadedFile :=
  match data with
  | None => inl ["required"]
  | Some f =>
      if decide (upload_name f = "") then inl ["no_name"]
      else if decide (upload_size f = 0)%Z then inl ["empty"]
      else inr f
  end.

Module FileUploadSerializer.

(** [request.data]. *)
Record data := {
  file : option UploadedFile;
  replication_factor : field_input;
  chunk_size : field_input
}.

(** [serializer.validated_data]. *)
Record validated_data := {
  validated_file : UploadedFile;
  validated_replication_factor : Z;
  validated_chunk_size : Z
}.

(** [validate_chunk_size]:
<<
    if value % 4096 != 0:
        raise serializers.ValidationError(...)
    return value
>> *)
Definition validate_chunk_size (value : Z) : list string + Z :=
  if decide (value `mod` 4096 ≠ 0)%Z
  then inl ["Chunk size must be a multiple of 4KB (4096 bytes)"]
  else inr value.

(** The three declared fields, in declaration order. *)
Definition file_field := FileField.
Definition replication_factor_field :=
  IntegerField (Some 1%Z) (Some 3%Z) (Some 2%Z).
Definition chunk_size_field :=
  IntegerField (Some 1024%Z) None (Some (1024 * 1024)%Z).

Definition field_errors {A} (field : string) (r : list string + A)
    : list (string * string) :=
  match r with
  | inl errors => (λ e, (field, e)) <$> errors
  | inr _ => []
  end.

(** [is_valid(raise_exception=True)]: every field is run, then its
    [validate_<field>] hook; the errors of all fields are reported
    together. *)
Definition is_valid (d : data) : result validated_data :=
  let f := file_field (file d) in
  let rf := replication_factor_field (replication_factor d) in
  let cs := match chunk_size_field (chunk_size d) with
            | inr v => validate_chunk_size v
            | inl errors => inl errors
            end in
  match f, rf, cs with
  | inr f, inr rf, inr cs =>
      Ok {| validated_file := f; validated_replication_factor := rf;
            validated_chunk_size := cs |}
  | _, _, _ =>
      Err (ValidationError (field_errors "file" f
                            ++ field_errors "replication_factor" rf
                            ++ field_errors "chunk_size" cs))
  end.

End FileUploadSerializer.

(** ** views.py *)

(** What a view hands back: the HTTP status and the payload. *)
Inductive payload :=
  | FileData (f : File.t) (is_available : bool)
  | FileExists (file_id : uuid)
  | FileVersionData (v : FileVersion.t)
  | Valid (valid : bool)
  | Status (s : string).

Record Response := {
  status_code : N;
  data : payload
}.

Definition HTTP_200_OK : N := 200.
Definition HTTP_201_CREATED : N := 201.
Definition HTTP_409_CONFLICT : N := 409.

(** [UploadedFile.chunks(chunk_size)]: the content in blocks of
    [chunk_size] bytes, the last one shorter. *)
Fixpoint chunks_upto (fuel : nat) (chunk_size : nat) (content : list Byte.byte)
    : list (list Byte.byte) :=
  match fuel, content with
  | S fuel, _ :: _ =>
      take chunk_size content
      :: chunks_upto fuel chunk_size (drop chunk_size content)
  | _, _ => []
  end.

Definition upload_chunks (f : UploadedFile) (chunk_size : N)
    : list (list Byte.byte) :=
  chunks_upto (length (upload_content f)) (N.to_nat chunk_size)
    (upload_content f).

(** [FileSerializer(file).data]. *)
Definition FileSerializer (f : File.t) (db : DB) : payload :=
  FileData f (File.is_available f (chunks db)).

(** [hashlib]: the running hash that [hashlib.sha256()] starts, [update]
    and [hexdigest]. *)
Class Hashlib := {
  hasher : Type;
  sha256 : hasher;
  sha256_update : hasher → list Byte.byte → hasher;
  hexdigest : hasher → string
}.

(** The authenticated request: [request.user] and [request.data]. *)
Record Request (A : Type) := {
  request_user : user_id;
  request_data : A
}.
Arguments request_user {A} _.
Arguments request_data {A} _.

(** A view leaves the database as it finds it when it raises inside
    [transaction.atomic]; otherwise whatever was written stays. *)
Definition outcome : Type := result Response * DB.

Module StorageNodeViewSet.

(** [queryset = StorageNode.objects.filter(is_active=True)], or every node
    with [include_inactive=true]. *)
Definition get_queryset (include_inactive : bool) (db : DB)
    : list StorageNode.t :=
  if include_inactive then nodes db
  else filter (λ n, StorageNode.is_active n = true) (nodes db).

Definition get_object (include_inactive : bool) (pk : uuid) (db : DB)
    : result StorageNode.t :=
  or_raise Http404 (StorageNode.get pk (get_queryset include_inactive db)).

Definition heartbeat (include_inactive : bool) (pk : uuid)
    (now : datetime) (db : DB) : outcome :=
  match get_object include_inactive pk db with
  | Err e => (Err e, db)
  | Ok node =>
      match StorageNode.update_heartbeat node now (nodes db) with
      | Err e => (Err e, db)
      | Ok (_, nodes) =>
          (Ok {| status_code := HTTP_200_OK;
                 data := Status "heartbeat received" |},
           set_nodes nodes db)
      end
  end.

End StorageNodeViewSet.

Module FileViewSet.

(** [queryset = File.objects.filter(is_deleted=False)], narrowed to
    [user=self.request.user]. *)
Definition get_queryset (user : user_id) (db : DB) : list File.t :=
  filter (λ f, File.user f = Some user)
    (filter (λ f, File.is_deleted f = false) (files db)).

Definition get_object (user : user_id) (pk : uuid) (db : DB)
    : result File.t :=
  or_raise Http404 (File.get pk (get_queryset user db)).

(** The whole-file digest:
<<
    sha256_hash = hashlib.sha256()
    for chunk in file_obj.chunks(chunk_size=8192):
        sha256_hash.update(chunk)
    file_checksum = sha256_hash.hexdigest()
>> *)
Definition file_checksum `{Hashlib} (file_obj : UploadedFile) : string :=
  hexdigest (foldl sha256_update sha256 (upload_chunks file_obj 8192)).

(** [create], under [@transaction.atomic].  [new_id] is the [uuid.uuid4()]
    drawn for the new row and [now] the clock. *)
Definition create `{Hashlib}
    (request : Request FileUploadSerializer.data)
    (new_id : uuid) (now : datetime) (db : DB) : outcome :=
  match FileUploadSerializer.is_valid (request_data request) with
  | Err e => (Err e, db)
  | Ok validated =>
      let file_obj := FileUploadSerializer.validated_file validated in
      let chunk_size :=
        FileUploadSerializer.validated_chunk_size validated in
      let replication_factor :=
        FileUploadSerializer.validated_replication_factor validated in
      let file_checksum := file_checksum file_obj in
      let existing_file :=
        File.first
          (filter (λ f, File.checksum f = file_checksum
                        ∧ File.user f = Some (request_user request))
                  (files db)) in
      match existing_file with
      | Some existing_file =>
          (Ok {| status_code := HTTP_409_CONFLICT;
                 data := FileExists (File.id existing_file) |}, db)
      | None =>
          let file_record :=
            {| File.id := new_id;
               File.name := upload_name file_obj;
               File.size := upload_size file_obj;
               File.checksum := file_checksum;
               File.content_type := upload_content_type file_obj;
               File.user := Some (request_user request);
               File.created_at := now;
               File.updated_at := now;
               File.deleted_at := None;
               File.is_deleted := false |} in
          match File.create file_record (files db) with
          | Err e => (Err e, db)
          | Ok files =>
              let db := set_files files db in
              (Ok {| status_code := HTTP_201_CREATED;
                     data := FileSerializer file_record db |}, db)
          end
      end
  end.

(** [create_version]:
<<
    file_obj = self.get_object()
    version = FileVersion.objects.create(
        file=file_obj,
        version_number=file_obj.versions.count() + 1,
        size=file_obj.size, checksum=file_obj.checksum,
        created_by=request.user, notes=request.data.get('notes', ''))
>> *)
Definition create_version (request : Request (option string)) (pk : uuid)
    (new_id : uuid) (now : datetime) (db : DB) : outcome :=
  match get_object (request_user request) pk db with
  | Err e => (Err e, db)
  | Ok file_obj =>
      let version :=
        {| FileVersion.id := new_id;
           FileVersion.file := File.id file_obj;
           FileVersion.version_number :=
             (N.of_nat (length (FileVersion.of_file (File.id file_obj)
                                  (versions db))) + 1)%N;
           FileVersion.size := File.size file_obj;
           FileVersion.checksum := File.checksum file_obj;
           FileVersion.created_at := now;
           FileVersion.created_by := Some (request_user request);
           FileVersion.notes := default "" (request_data request) |} in
      match FileVersion.create version (versions db) with
      | Err e => (Err e, db)
      | Ok versions =>
          (Ok {| status_code := HTTP_201_CREATED;
                 data := FileVersionData version |},
           set_versions versions db)
      end
  end.

End FileViewSet.

Module ChunkViewSet.

(** [Chunk.objects.filter(file__user=self.request.user)]. *)
Definition get_queryset (user : user_id) (db : DB) : list Chunk.t :=
  filter (λ c, Exists (λ f, File.id f = Chunk.file c
                            ∧ File.user f = Some user) (files db))
         (chunks db).

Definition get_object (user : user_id) (pk : uuid) (db : DB)
    : result Chunk.t :=
  or_raise Http404 (Chunk.get pk (get_queryset user db)).

(** [_calculate_checksum]: the body is [return chunk.checksum]. *)
Definition _calculate_checksum (chunk : Chunk.t) : option string :=
  Chunk.checksum chunk.

(** [verify]:
<<
    chunk = self.get_object()
    calculated_checksum = self._calculate_checksum(chunk)
    chunk.stored_checksum = calculated_checksum
    chunk.last_verified_at = timezone.now()
    chunk.save(update_fields=['stored_checksum', 'last_verified_at'])
    is_valid = chunk.verify_checksum(calculated_checksum)
    return Response({'valid': is_valid})
>>
    The view is not atomic: the first save stays if the second raises. *)
Definition verify (user : user_id) (pk : uuid) (now : datetime) (db : DB)
    : outcome :=
  match get_object user pk db with
  | Err e => (Err e, db)
  | Ok chunk =>
      let calculated_checksum := _calculate_checksum chunk in
      let chunk := Chunk.set_stored_checksum calculated_checksum chunk in
      let chunk := Chunk.set_last_verified_at (Some now) chunk in
      match save_fields Chunk.id (Chunk.id chunk)
              (λ r, Chunk.set_last_verified_at
                      (Chunk.last_verified_at chunk)
                      (Chunk.set_stored_checksum
                         (Chunk.stored_checksum chunk) r))
              (chunks db) with
      | Err e => (Err e, db)
      | Ok saved =>
          let db := set_chunks saved db in
          match Chunk.verify_checksum chunk calculated_checksum saved with
          | Err e => (Err e, db)
          | Ok (is_valid, _, saved) =>
              (Ok {| status_code := HTTP_200_OK; data := Valid is_valid |},
               set_chunks saved db)
          end
      end
  end.

End ChunkViewSet.

Module FileVersionViewSet.

(** [FileVersion.objects.filter(file__user=self.request.user)]. *)
Definition get_queryset (user : user_id) (db : DB)
    : list FileVersion.t :=
  filter (λ v, Exists (λ f, File.id f = FileVersion.file v
                            ∧ File.user f = Some user) (files db))
         (versions db).

Definition get_object (user : user_id) (pk : uuid) (db : DB)
    : result FileVersion.t :=
  or_raise Http404 (FileVersion.get pk (get_queryset user db)).

(** [restore]:
<<
    version = self.get_object()
    file_obj = version.restore()
    return Response(FileSerializer(file_obj).data)
>> *)
Definition restore (user : user_id) (pk : uuid) (db : DB) : outcome :=
  match get_object user pk db with
  | Err e => (Err e, db)
  | Ok version =>
      match FileVersion.restore version (files db) with
      | Err e => (Err e, db)
      | Ok (file_obj, files) =>
          let db := set_files files db in
          (Ok {| status_code := HTTP_200_OK;
                 data := FileSerializer file_obj db |}, db)
      end
  end.

End FileVersionViewSet.

(** ** models.py: FileManager and the content-type properties of File *)

Module FileManager.




End FileManager.

(** Python's [t in s] and [s.startswith(t)] on strings. *)
Definition contains (t s : string) : bool :=
  bool_decide (is_Some (String.index 0 t s)).

Definition startswith (s t : string) : bool := String.prefix t s.

Module FileType.

(** [is_image]: [self.content_type and
    self.content_type.startswith('image/')], as a truth value. *)
Definition is_image (self : File.t) : bool :=
  bool_decide (File.content_type self ≠ "")
  && startswith (File.content_type self) "image/".

(** [is_document]: [self.content_type and any(t in self.content_type for t
    in ['text/', 'application/pdf', 'application/msword',
    'application/vnd.openxmlformats-'])]. *)
Definition is_document (self : File.t) : bool :=
  bool_decide (File.content_type self ≠ "")
  && existsb (λ t, contains t (File.content_type self))
       ["text/"; "application/pdf"; "application/msword";
        "application/vnd.openxmlformats-"].

(** [is_archive]: [self.content_type and any(t in self.content_type for t
    in ['zip', 'rar', 'tar', '7z', 'gz'])]. *)
Definition is_archive (self : File.t) : bool :=
  bool_decide (File.content_type self ≠ "")
  && existsb (λ t, contains t (File.content_type self))
       ["zip"; "rar"; "tar"; "7z"; "gz"].

(** [get_file_type]:
<<
    if self.is_image:
        return 'image'
    elif self.is_document:
        return 'document'
    elif self.is_archive:
        return 'archive'
    return 'other'
>> *)
Definition get_file_type (self : File.t) : string :=
  if is_image self then "image"
  else if is_document self then "document"
  else if is_archive self then "archive"
  else "other".

End FileType.

(** ** Sequences of calls *)

(** Calls of the code above, each with the arguments of one call: the five
    actions [views.py] defines that write, the model methods of [models.py]
    that write, on the instance they are called on, and the deletion of a
    File.  What the view sets inherit from [ModelViewSet] (create, update
    and destroy through the model serializers) and the admin site are not
    among them. *)
Inductive op :=
  | Upload (request : Request FileUploadSerializer.data)
      (new_id : uuid) (now : datetime)
  | CreateVersion (request : Request (option string)) (pk : uuid)
      (new_id : uuid) (now : datetime)
  | Verify (user : user_id) (pk : uuid) (now : datetime)
  | RestoreVersion (user : user_id) (pk : uuid)
  | Heartbeat (include_inactive : bool) (pk : uuid) (now : datetime)
  | SoftDelete (self : File.t) (now : datetime)
  | RestoreFile (self : File.t)
  | MarkAsPrimary (self : Chunk.t)
  | DeleteChunk (self : Chunk.instance)
  | VerifyChecksum (self : Chunk.t) (calculated_checksum : option string)
  | UpdateHeartbeat (self : StorageNode.t) (now : datetime)
  | UpdateStorageMetrics (self : StorageNode.t) (used_space : Z)
  | RestoreSnapshot (self : FileVersion.t)
  | DeleteFile (self : File.t).

(** The database one call leaves behind. *)
Definition exec `{Hashlib} (o : op) (db : DB) : DB :=
  match o with
  | Upload request new_id now =>
      (FileViewSet.create request new_id now db).2
  | CreateVersion request pk new_id now =>
      (FileViewSet.create_version request pk new_id now db).2
  | Verify user pk now => (ChunkViewSet.verify user pk now db).2
  | RestoreVersion user pk => (FileVersionViewSet.restore user pk db).2
  | Heartbeat include_inactive pk now =>
      (StorageNodeViewSet.heartbeat include_inactive pk now db).2
  | SoftDelete self now =>
      match File.soft_delete self now (files db) with
      | Ok (_, rows) => set_files rows db
      | Err _ => db
      end
  | RestoreFile self =>
      match File.restore self (files db) with
      | Ok (_, rows) => set_files rows db
      | Err _ => db
      end
  | MarkAsPrimary self =>
      match Chunk.mark_as_primary self (chunks db) with
      | Ok (_, rows) => set_chunks rows db
      | Err _ => db
      end
  | DeleteChunk self =>
      let '(_, (rows, nodes)) := Chunk.delete self (chunks db) (nodes db) in
      set_nodes nodes (set_chunks rows db)
  | VerifyChecksum self calculated_checksum =>
      match Chunk.verify_checksum self calculated_checksum (chunks db) with
      | Ok (_, _, rows) => set_chunks rows db
      | Err _ => db
      end
  | UpdateHeartbeat self now =>
      match StorageNode.update_heartbeat self now (nodes db) with
      | Ok (_, rows) => set_nodes rows db
      | Err _ => db
      end
  | UpdateStorageMetrics self used_space =>
      match StorageNode.update_storage_metrics self used_space (nodes db) with
      | Ok (_, rows) => set_nodes rows db
      | Err _ => db
      end
  | RestoreSnapshot self =>
      match FileVersion.restore self (files db) with
      | Ok (_, rows) => set_files rows db
      | Err _ => db
      end
  | DeleteFile self => delete_file self db
  end.

Definition run `{Hashlib} (ops : list op) (db : DB) : DB :=
  foldl (λ db o, exec o db) db ops.

(** The calls that are actions of [views.py]: [create], [create_version],
    [verify], [restore] and [heartbeat].  The instance such a call works on
    is the one [get_object] reads. *)
Definition is_action (o : op) : bool :=
  match o with
  | Upload _ _ _ | CreateVersion _ _ _ _ | Verify _ _ _
  | RestoreVersion _ _ | Heartbeat _ _ _ => true
  | _ => false
  end.

(** ** Properties the specification names *)


(** At least one completed chunk for every ordinal from 0 to the largest
    ordinal the file has a chunk for. *)
Definition completed_chunk_per_ordinal (f : File.t) (chunks : list Chunk.t)
    : Prop :=
  ∀ k top, top ∈ chunks → Chunk.file top = File.id f →
    (k ≤ Chunk.chunk_number top)%N →
    ∃ c, c ∈ chunks ∧ Chunk.file c = File.id f
         ∧ Chunk.chunk_number c = k ∧ Chunk.status c = Chunk.COMPLETED.


(** A positive multiple of the alignment unit. *)
Definition positive_multiple (unit z : Z) : Prop :=
  (0 < z)%Z ∧ (unit | z)%Z.

(** The node invariant of the data model. *)
Definition capacity_invariant (n : StorageNode.t) : Prop :=
  (0 ≤ StorageNode.available n ≤ StorageNode.capacity n)%Z.

(** ** Auxiliary definitions *)

(** The bookkeeping [verify] writes for the chunk it is called on. *)
Definition verified (recorded : option string) (now : datetime)
    (r : Chunk.t) : Chunk.t :=
  Chunk.set_last_verified_at (Some now)
    (Chunk.set_stored_checksum recorded r).


(** The two statements of [mark_as_primary]. *)
Definition demoted (self : Chunk.t) (chunks : list Chunk.t)
    : list Chunk.t :=
  update_where (Chunk.other_primaries self)
    (Chunk.set_is_primary false) chunks.

Definition promoted (self : Chunk.t) (chunks : list Chunk.t)
    : list Chunk.t :=
  update_where (λ r, Chunk.id r = Chunk.id self)
    (Chunk.set_is_primary true) chunks.

(** The rows [create] looks for: same digest, same owner. *)
Definition same_content `{Hashlib}
    (request : Request FileUploadSerializer.data) (f : UploadedFile)
    (r : File.t) : Prop :=
  File.checksum r = FileViewSet.file_checksum f
  ∧ File.user r = Some (request_user request).

(** The row [create] inserts. *)
Definition file_record `{Hashlib}
    (request : Request FileUploadSerializer.data) (f : UploadedFile)
    (new_id : uuid) (now : datetime) : File.t :=
  {| File.id := new_id;
     File.name := upload_name f;
     File.size := upload_size f;
     File.checksum := FileViewSet.file_checksum f;
     File.content_type := upload_content_type f;
     File.user := Some (request_user request);
     File.created_at := now;
     File.updated_at := now;
     File.deleted_at := None;
     File.is_deleted := false |}.

(** The four ways [create] ends. *)
Inductive create_result `{Hashlib}
    (request : Request FileUploadSerializer.data) (new_id : uuid)
    (now : datetime) (db : DB) : outcome → Prop :=
  | create_invalid errors :
      FileUploadSerializer.is_valid (request_data request)
      = Err (ValidationError errors) →
      create_result request new_id now db
        (Err (ValidationError errors), db)
  | create_conflict v existing :
      FileUploadSerializer.is_valid (request_data request) = Ok v →
      existing ∈ files db →
      same_content request (FileUploadSerializer.validated_file v)
        existing →
      create_result request new_id now db
        (Ok {| status_code := HTTP_409_CONFLICT;
               data := FileExists (File.id existing) |}, db)
  | create_key_taken v :
      FileUploadSerializer.is_valid (request_data request) = Ok v →
      (∀ r, r ∈ files db →
         ¬ same_content request (FileUploadSerializer.validated_file v) r) →
      create_result request new_id now db (Err IntegrityError, db)
  | create_inserted v :
      FileUploadSerializer.is_valid (request_data request) = Ok v →
      (∀ r, r ∈ files db →
         ¬ same_content request (FileUploadSerializer.validated_file v) r) →
      (∀ r, r ∈ files db → File.id r ≠ new_id) →
      let row := file_record request (FileUploadSerializer.validated_file v)
                   new_id now in
      let db' := set_files (files db ++ [row]) db in
      create_result request new_id now db
        (Ok {| status_code := HTTP_201_CREATED;
               data := FileSerializer row db' |}, db').

(** What [update_storage_metrics] writes into the row of a node of the
    given capacity. *)
Definition recomputed (used capacity : Z) (r : StorageNode.t)
    : StorageNode.t :=
  StorageNode.set_is_active (bool_decide (0 < Z.max 0 (capacity - used))%Z)
    (StorageNode.set_available (Z.max 0 (capacity - used)) r).

(** What [soft_delete], [File.restore] and [FileVersion.restore] write into
    a row. *)
Definition mark_deleted (now : datetime) (r : File.t) : File.t :=
  File.set_deleted_at (Some now) (File.set_is_deleted true r).


Definition roll_back (version : FileVersion.t) (r : File.t) : File.t :=
  File.set_checksum (FileVersion.checksum version)
    (File.set_size (FileVersion.size version) r).



(** The columns of a File row that no action of [views.py] writes: all
    but [size] and [checksum]. *)
Definition file_identity (f : File.t)
    : uuid * string * string * option user_id * datetime * datetime
      * option datetime * bool :=
  (File.id f, File.name f, File.content_type f, File.user f,
   File.created_at f, File.updated_at f, File.deleted_at f,
   File.is_deleted f).

(** The columns of a Chunk row that neither [verify] nor [mark_as_primary]
    writes, and those of a StorageNode row that neither [update_heartbeat]
    nor [update_storage_metrics] writes. *)

Definition chunk_identity (c : Chunk.t)
    : uuid * uuid * uuid * string * N * N * option string
      * Chunk.ChunkStatus * datetime * datetime :=
  (Chunk.id c, Chunk.file c, Chunk.storage_node c, Chunk.object_key c,
   Chunk.chunk_number c, Chunk.size c, Chunk.checksum c, Chunk.status c,
   Chunk.created_at c, Chunk.updated_at c).

Definition node_identity (n : StorageNode.t)
    : uuid * string * string * N * Z * datetime :=
  (StorageNode.id n, StorageNode.name n, StorageNode.host n,
   StorageNode.port n, StorageNode.capacity n, StorageNode.created_at n).

(** A sequence of calls that are all actions of [views.py]. *)
Definition actions_only (ops : list op) : Prop :=
  Forall (λ o, is_action o = true) ops.

(** The version [create_version] inserts for a file. *)
Definition snapshot_of (request : Request (option string)) (f : File.t)
    (new_id : uuid) (now : datetime) (versions : list FileVersion.t)
    : FileVersion.t :=
  {| FileVersion.id := new_id;
     FileVersion.file := File.id f;
     FileVersion.version_number :=
       (N.of_nat (length (FileVersion.of_file (File.id f) versions)) + 1)%N;
     FileVersion.size := File.size f;
     FileVersion.checksum := File.checksum f;
     FileVersion.created_at := now;
     FileVersion.created_by := Some (request_user request);
     FileVersion.notes := default "" (request_data request) |}.

(** ** Sample data *)

(** A completed replica whose bytes on the node were overwritten after the
    upload: the row still records the digest of the original bytes. *)
Definition altered_chunk : Chunk.t :=
  {| Chunk.id := 10; Chunk.file := 1; Chunk.storage_node := 100;
     Chunk.object_key := "chunks/1/0"; Chunk.chunk_number := 0;
     Chunk.size := 4096; Chunk.checksum := Some "digest-of-original-bytes";
     Chunk.is_primary := true; Chunk.status := Chunk.COMPLETED;
     Chunk.stored_checksum := None; Chunk.last_verified_at := None;
     Chunk.created_at := 5; Chunk.updated_at := 5 |}.

Definition sibling_chunk : Chunk.t :=
  {| Chunk.id := 11; Chunk.file := 1; Chunk.storage_node := 101;
     Chunk.object_key := "chunks/1/0"; Chunk.chunk_number := 0;
     Chunk.size := 4096; Chunk.checksum := Some "digest-of-original-bytes";
     Chunk.is_primary := false; Chunk.status := Chunk.COMPLETED;
     Chunk.stored_checksum := None; Chunk.last_verified_at := None;
     Chunk.created_at := 5; Chunk.updated_at := 5 |}.

Definition report_txt : File.t :=
  {| File.id := 1; File.name := "report.txt"; File.size := 4096;
     File.checksum := "digest-of-original-bytes";
     File.content_type := "text/plain"; File.user := Some 7%N;
     File.created_at := 5; File.updated_at := 5;
     File.deleted_at := None; File.is_deleted := false |}.

Definition altered_db : DB :=
  {| nodes := []; files := [report_txt];
     chunks := [altered_chunk; sibling_chunk]; versions := [] |}.

(** Two replicas of chunk 0 of file 1, on two nodes; the first is the
    primary. *)
Definition replica_a : Chunk.t :=
  {| Chunk.id := 20; Chunk.file := 1; Chunk.storage_node := 100;
     Chunk.object_key := "chunks/1/0"; Chunk.chunk_number := 0;
     Chunk.size := 4096; Chunk.checksum := Some "c0ffee";
     Chunk.is_primary := true; Chunk.status := Chunk.COMPLETED;
     Chunk.stored_checksum := None; Chunk.last_verified_at := None;
     Chunk.created_at := 5; Chunk.updated_at := 5 |}.

Definition replica_b : Chunk.t :=
  {| Chunk.id := 21; Chunk.file := 1; Chunk.storage_node := 101;
     Chunk.object_key := "chunks/1/0"; Chunk.chunk_number := 0;
     Chunk.size := 4096; Chunk.checksum := Some "c0ffee";
     Chunk.is_primary := false; Chunk.status := Chunk.COMPLETED;
     Chunk.stored_checksum := None; Chunk.last_verified_at := None;
     Chunk.created_at := 5; Chunk.updated_at := 5 |}.

(** A stand-in for [hashlib] whose digest is the content read so far. *)
Definition plain_hashlib : Hashlib :=
  {| hasher := list Byte.byte;
     sha256 := [];
     sha256_update := app;
     hexdigest := String.string_of_list_byte |}.

Definition empty_db : DB :=
  {| nodes := []; files := []; chunks := []; versions := [] |}.

Definition hello_txt : UploadedFile :=
  {| upload_name := "hello.txt"; upload_size := 5;
     upload_content_type := "text/plain";
     upload_content := String.list_byte_of_string "hello" |}.

(** User 7 uploads [hello.txt] with the default settings. *)
Definition hello_upload : Request FileUploadSerializer.data :=
  {| request_user := 7;
     request_data :=
       {| FileUploadSerializer.file := Some hello_txt;
          FileUploadSerializer.replication_factor := Omitted;
          FileUploadSerializer.chunk_size := Omitted |} |}.

(** The same upload asking for chunks of 5000 bytes. *)
Definition misaligned_upload : Request FileUploadSerializer.data :=
  {| request_user := 7;
     request_data :=
       {| FileUploadSerializer.file := Some hello_txt;
          FileUploadSerializer.replication_factor := Omitted;
          FileUploadSerializer.chunk_size := IntIn 5000 |} |}.

(** The same upload asking for four replicas. *)
Definition four_replicas_upload : Request FileUploadSerializer.data :=
  {| request_user := 7;
     request_data :=
       {| FileUploadSerializer.file := Some hello_txt;
          FileUploadSerializer.replication_factor := IntIn 4;
          FileUploadSerializer.chunk_size := Omitted |} |}.

(** The database after the first upload of [hello.txt]. *)
Definition hello_db : DB :=
  (FileViewSet.create (H := plain_hashlib) hello_upload 1 10 empty_db).2.

(** A live file whose only chunk is still being uploaded. *)
Definition draft_file : File.t :=
  {| File.id := 3; File.name := "draft.bin"; File.size := 4096;
     File.checksum := "d7af7"; File.content_type := "";
     File.user := Some 7%N; File.created_at := 1; File.updated_at := 1;
     File.deleted_at := None; File.is_deleted := false |}.

Definition uploading_chunk : Chunk.t :=
  {| Chunk.id := 30; Chunk.file := 3; Chunk.storage_node := 100;
     Chunk.object_key := "chunks/3/0"; Chunk.chunk_number := 0;
     Chunk.size := 4096; Chunk.checksum := Some "d7af7";
     Chunk.is_primary := false; Chunk.status := Chunk.UPLOADING;
     Chunk.stored_checksum := None; Chunk.last_verified_at := None;
     Chunk.created_at := 1; Chunk.updated_at := 1 |}.

(** A node registered with a negative capacity, and one with room for a
    megabyte that holds the chunk above. *)
Definition negative_node : StorageNode.t :=
  {| StorageNode.id := 100; StorageNode.name := "node-a";
     StorageNode.host := "10.0.0.1"; StorageNode.port := 8001;
     StorageNode.capacity := -1; StorageNode.available := 0;
     StorageNode.is_active := false; StorageNode.last_heartbeat := 1;
     StorageNode.created_at := 1 |}.

Definition megabyte_node : StorageNode.t :=
  {| StorageNode.id := 100; StorageNode.name := "node-a";
     StorageNode.host := "10.0.0.1"; StorageNode.port := 8001;
     StorageNode.capacity := 1048576; StorageNode.available := 0;
     StorageNode.is_active := false; StorageNode.last_heartbeat := 1;
     StorageNode.created_at := 1 |}.

(** Two blocks of 100 bytes on node 100, which was registered with room for
    a megabyte and later resized to 1000 bytes; [block_a_before_resize] is
    an instance of the first block that still holds the node as it was read
    before the resize. *)
Definition block_a : Chunk.t :=
  {| Chunk.id := 40; Chunk.file := 3; Chunk.storage_node := 100;
     Chunk.object_key := "chunks/3/1"; Chunk.chunk_number := 1;
     Chunk.size := 100; Chunk.checksum := Some "b10c4a";
     Chunk.is_primary := true; Chunk.status := Chunk.COMPLETED;
     Chunk.stored_checksum := None; Chunk.last_verified_at := None;
     Chunk.created_at := 2; Chunk.updated_at := 2 |}.

Definition block_b : Chunk.t :=
  {| Chunk.id := 41; Chunk.file := 3; Chunk.storage_node := 100;
     Chunk.object_key := "chunks/3/2"; Chunk.chunk_number := 2;
     Chunk.size := 100; Chunk.checksum := Some "b10c4b";
     Chunk.is_primary := true; Chunk.status := Chunk.COMPLETED;
     Chunk.stored_checksum := None; Chunk.last_verified_at := None;
     Chunk.created_at := 2; Chunk.updated_at := 2 |}.

Definition resized_node : StorageNode.t :=
  {| StorageNode.id := 100; StorageNode.name := "node-a";
     StorageNode.host := "10.0.0.1"; StorageNode.port := 8001;
     StorageNode.capacity := 1000; StorageNode.available := 800;
     StorageNode.is_active := true; StorageNode.last_heartbeat := 1;
     StorageNode.created_at := 1 |}.

Definition block_a_before_resize : Chunk.instance :=
  {| Chunk.pk := Some 40%N; Chunk.storage_node_id := 100;
     Chunk.storage_node_cache :=
       Some (StorageNode.set_available 1048376
               (StorageNode.set_is_active true megabyte_node)) |}.

(** The draft file with its chunk of 4096 bytes on a one-megabyte node whose
    row is up to date. *)
Definition draft_node : StorageNode.t :=
  StorageNode.set_available 1044480
    (StorageNode.set_is_active true megabyte_node).

Definition draft_db : DB :=
  {| nodes := [draft_node]; files := [draft_file];
     chunks := [uploading_chunk]; versions := [] |}.


(** User 7 snapshots a file, with a note. *)
Definition snapshot_request : Request (option string) :=
  {| request_user := 7; request_data := Some "before edit" |}.

(** [hello.txt] is uploaded and snapshotted twice. *)
Definition two_snapshots : list op :=
  [Upload hello_upload 1 10;
   CreateVersion snapshot_request 1 50 11;
   CreateVersion snapshot_request 1 51 12].

(** [hello.txt] with one snapshot, after its current size and digest moved
    on. *)
Definition edited_db : DB :=
  {| nodes := [];
     files := [File.set_checksum "edited" (File.set_size 9
                 (file_record (H := plain_hashlib) hello_upload hello_txt
                    1 10))];
     chunks := [uploading_chunk];
     versions := [{| FileVersion.id := 50; FileVersion.file := 1;
                     FileVersion.version_number := 1;
                     FileVersion.size := 5; FileVersion.checksum := "hello";
                     FileVersion.created_at := 11;
                     FileVersion.created_by := Some 7%N;
                     FileVersion.notes := "before edit" |}] |}.

(** [edited_db] after user 7 snapshots the edited [hello.txt] as version
    51. *)
Definition edited_snapshot_db : DB :=
  (FileViewSet.create_version snapshot_request 1 51 12 edited_db).2.

(** A file whose content type is the given string. *)
Definition typed_file (content_type : string) : File.t :=
  {| File.id := 9; File.name := "f"; File.size := 1; File.checksum := "";
     File.content_type := content_type; File.user := None;
     File.created_at := 0; File.updated_at := 0; File.deleted_at := None;
     File.is_deleted := false |}.

(** * Verification *)

(** ** The embedding at work *)

Example chunk_size_4096 :
  FileUploadSerializer.chunk_size_field (IntIn 4096) = inr 4096%Z
  ∧ FileUploadSerializer.validate_chunk_size 4096 = inr 4096%Z.
Proof. split; reflexivity. Qed.

Example chunk_size_5000 :
  FileUploadSerializer.validate_chunk_size 5000
  = inl ["Chunk size must be a multiple of 4KB (4096 bytes)"].
Proof. reflexivity. Qed.

Example chunk_size_zero_and_negative :
  FileUploadSerializer.chunk_size_field (IntIn 0) = inl ["min_value"]
  ∧ FileUploadSerializer.chunk_size_field (IntIn (-4096)) = inl ["min_value"].
Proof. split; reflexivity. Qed.

Example replication_factor_bounds :
  FileUploadSerializer.replication_factor_field (IntIn 0) = inl ["min_value"]
  ∧ FileUploadSerializer.replication_factor_field (IntIn 3) = inr 3%Z
  ∧ FileUploadSerializer.replication_factor_field (IntIn 4)
    = inl ["max_value"].
Proof. repeat split; reflexivity. Qed.

Example upload_in_blocks :
  String.string_of_list_byte <$> upload_chunks hello_txt 2
  = ["he"; "ll"; "o"].
Proof. reflexivity. Qed.

Example first_upload :
  FileViewSet.create (H := plain_hashlib) hello_upload 1 10 empty_db
  = (Ok {| status_code := HTTP_201_CREATED;
           data := FileData (file_record (H := plain_hashlib) hello_upload
                               hello_txt 1 10) false |},
     hello_db)
  ∧ File.checksum <$> files hello_db = ["hello"].
Proof. split; reflexivity. Qed.

Example second_upload :
  FileViewSet.create (H := plain_hashlib) hello_upload 2 20 hello_db
  = (Ok {| status_code := HTTP_409_CONFLICT; data := FileExists 1 |},
     hello_db).
Proof. reflexivity. Qed.

Example snapshot_of_deleted_file :
  let hello := file_record (H := plain_hashlib) hello_upload hello_txt 1 10 in
  let deleted := exec (H := plain_hashlib) (SoftDelete hello 30) hello_db in
  FileViewSet.create_version snapshot_request 1 50 31 deleted
  = (Err Http404, deleted).
Proof. reflexivity. Qed.

(** ** Row-level SQL *)

Section sql.
Context {A : Type} (pk_of : A → uuid).
Implicit Types (table : list A) (f : A → A).

Lemma update_where_elem (P : A → Prop) `{∀ r, Decision (P r)} f table r' :
  r' ∈ update_where P f table ↔
  ∃ r, r ∈ table ∧ r' = (if decide (P r) then f r else r).
Proof.
  unfold update_where. rewrite list_elem_of_fmap.
  split; intros (r & ? & ?); exists r; done.
Qed.

Lemma update_where_length (P : A → Prop) `{∀ r, Decision (P r)} f table :
  length (update_where P f table) = length table.
Proof. unfold update_where. by rewrite length_fmap. Qed.

Lemma update_where_lookup (P : A → Prop) `{∀ r, Decision (P r)} f table i :
  update_where P f table !! i =
  (λ r, if decide (P r) then f r else r) <$> table !! i.
Proof. unfold update_where. by rewrite list_lookup_fmap. Qed.

(** An update that keeps a column keeps that column of the table. *)
Lemma update_where_column {B} (col : A → B) (P : A → Prop)
    `{∀ r, Decision (P r)} f table :
  (∀ r, col (f r) = col r) →
  col <$> update_where P f table = col <$> table.
Proof.
  intros Hcol. unfold update_where. rewrite <- list_fmap_compose.
  apply list_fmap_ext. intros i r _. simpl. case_decide; auto.
Qed.



Lemma update_where_twice (P : A → Prop) `{∀ r, Decision (P r)} f g table :
  (∀ r, P r → P (f r)) →
  update_where P g (update_where P f table)
  = update_where P (g ∘ f) table.
Proof.
  intros Hkeep. unfold update_where. rewrite <- list_fmap_compose.
  apply list_fmap_ext. intros i r _. simpl.
  destruct (decide (P r)) as [HP|HP].
  - rewrite decide_True by auto. done.
  - by rewrite decide_False.
Qed.

Lemma save_fields_Ok pk f table rows :
  save_fields pk_of pk f table = Ok rows ↔
  Exists (λ r, pk_of r = pk) table
  ∧ rows = update_where (λ r, pk_of r = pk) f table.
Proof.
  unfold save_fields. case_decide as Hrow.
  - split; [intros [= <-]; done | intros [_ ->]; done].
  - split; [done | intros [Hex _]; done].
Qed.

Lemma save_fields_present pk f table :
  Exists (λ r, pk_of r = pk) table →
  save_fields pk_of pk f table
  = Ok (update_where (λ r, pk_of r = pk) f table).
Proof. intros. unfold save_fields. by rewrite decide_True. Qed.

Lemma get_by_pk_Some pk table r :
  get_by_pk pk_of pk table = Some r → r ∈ table ∧ pk_of r = pk.
Proof.
  unfold get_by_pk. intros Hhead. apply head_Some_elem_of in Hhead.
  apply list_elem_of_filter in Hhead. tauto.
Qed.

Lemma get_by_pk_present pk table r :
  get_by_pk pk_of pk table = Some r → Exists (λ r, pk_of r = pk) table.
Proof.
  intros Hget. apply get_by_pk_Some in Hget as [Hin Hpk].
  apply Exists_exists. eauto.
Qed.

Lemma get_by_pk_None pk table :
  get_by_pk pk_of pk table = None ↔ ¬ Exists (λ r, pk_of r = pk) table.
Proof.
  unfold get_by_pk. rewrite head_None, Exists_exists. split.
  - intros Hnil (r & Hin & Hpk).
    assert (r ∈ filter (λ r, pk_of r = pk) table) as Hr
      by (apply list_elem_of_filter; done).
    rewrite Hnil in Hr. by apply not_elem_of_nil in Hr.
  - intros Hnone.
    destruct (filter (λ r, pk_of r = pk) table) as [|x rows] eqn:Hrows;
      [done|].
    assert (x ∈ filter (λ r, pk_of r = pk) table) as Hx
      by (rewrite Hrows; left).
    apply list_elem_of_filter in Hx as [Hpk Hin]. destruct Hnone; eauto.
Qed.

(** The row [get] returns is the first one with the key, and a keyed
    update rewrites it in place. *)
Lemma get_by_pk_update pk f table r :
  (∀ r, pk_of (f r) = pk_of r) →
  get_by_pk pk_of pk table = Some r →
  get_by_pk pk_of pk (update_where (λ r, pk_of r = pk) f table)
  = Some (f r).
Proof.
  intros Hkey. unfold get_by_pk, update_where.
  induction table as [|x table IH]; [done|].
  rewrite fmap_cons, !filter_cons.
  destruct (decide (pk_of x = pk)) as [Hx|Hx].
  - rewrite decide_True by (by rewrite Hkey). by intros [= ->].
  - rewrite decide_False by done. done.
Qed.

End sql.

(** ** Chunk verification *)

Section verify.

(** [verify_checksum] with a digest that differs from the recorded one
    marks the rows of the chunk, and only them, as corrupted. *)
Lemma verify_checksum_mismatch self calculated chunks :
  Chunk.checksum self ≠ calculated →
  Exists (λ r, Chunk.id r = Chunk.id self) chunks →
  Chunk.verify_checksum self calculated chunks
  = Ok (false, Chunk.set_status Chunk.CORRUPTED self,
        update_where (λ r, Chunk.id r = Chunk.id self)
          (Chunk.set_status Chunk.CORRUPTED) chunks).
Proof.
  intros Hne Hrow. unfold Chunk.verify_checksum.
  rewrite bool_decide_eq_false_2 by done. simpl.
  rewrite save_fields_present by done. done.
Qed.

(** With the recorded digest it changes nothing. *)
Lemma verify_checksum_match self chunks :
  Chunk.verify_checksum self (Chunk.checksum self) chunks
  = Ok (true, self, chunks).
Proof.
  unfold Chunk.verify_checksum. rewrite bool_decide_eq_true_2 by done. done.
Qed.

Lemma chunk_get_object_Ok user pk db chunk :
  ChunkViewSet.get_object user pk db = Ok chunk →
  chunk ∈ chunks db ∧ Chunk.id chunk = pk.
Proof.
  unfold ChunkViewSet.get_object, Chunk.get, ChunkViewSet.get_queryset.
  destruct (get_by_pk _ _ _) as [c|] eqn:Hget; [|done].
  intros [= ->]. apply get_by_pk_Some in Hget as [Hin Hpk].
  apply list_elem_of_filter in Hin. tauto.
Qed.

(** Whatever bytes the node holds, [verify] answers "valid", copies the
    recorded digest into [stored_checksum], stamps [last_verified_at], and
    leaves the status of every row as it was. *)
Lemma verify_always_valid user pk now db chunk :
  ChunkViewSet.get_object user pk db = Ok chunk →
  ChunkViewSet.verify user pk now db
  = (Ok {| status_code := HTTP_200_OK; data := Valid true |},
     set_chunks (update_where (λ r, Chunk.id r = pk)
                   (verified (Chunk.checksum chunk) now) (chunks db)) db).
Proof.
  intros Hget. unfold ChunkViewSet.verify. rewrite Hget.
  apply chunk_get_object_Ok in Hget as [Hin <-]. simpl.
  rewrite save_fields_present by (apply Exists_exists; eauto).
  unfold ChunkViewSet._calculate_checksum.
  change (Chunk.verify_checksum ?c (Chunk.checksum chunk) ?rows)
    with (Chunk.verify_checksum c (Chunk.checksum c) rows).
  rewrite verify_checksum_match. done.
Qed.

Lemma verify_keeps_status user pk now db :
  Chunk.status <$> chunks (ChunkViewSet.verify user pk now db).2
  = Chunk.status <$> chunks db.
Proof.
  destruct (ChunkViewSet.get_object user pk db) as [chunk|e] eqn:Hget.
  - rewrite (verify_always_valid _ _ _ _ _ Hget). simpl.
    by apply update_where_column.
  - unfold ChunkViewSet.verify. rewrite Hget. done.
Qed.

End verify.

(** C1 (code defect).  The claim: verify records the digest of the stored
    bytes and moves a chunk whose bytes differ from the recorded digest to
    [corrupted].  On a completed chunk whose stored bytes were altered,
    [verify] reports the chunk valid, records the old digest as
    [stored_checksum] and leaves the status [completed]: the view never
    reads the bytes, its [_calculate_checksum] returns the recorded
    digest.  Handed the digest of the altered bytes, [verify_checksum]
    would mark that replica, and only it, corrupted. *)
Theorem verify_misses_altered_bytes :
  ChunkViewSet.verify 7 10 20 altered_db
  = (Ok {| status_code := HTTP_200_OK; data := Valid true |},
     set_chunks
       [Chunk.set_last_verified_at (Some 20%Z)
          (Chunk.set_stored_checksum (Some "digest-of-original-bytes")
             altered_chunk);
        sibling_chunk] altered_db)
  ∧ Chunk.status <$> chunks (ChunkViewSet.verify 7 10 20 altered_db).2
    = [Chunk.COMPLETED; Chunk.COMPLETED]
  ∧ Chunk.verify_checksum altered_chunk (Some "digest-of-altered-bytes")
      (chunks altered_db)
    = Ok (false, Chunk.set_status Chunk.CORRUPTED altered_chunk,
          [Chunk.set_status Chunk.CORRUPTED altered_chunk; sibling_chunk]).
Proof. repeat split; reflexivity. Qed.

(** ** Primary replicas *)

Section primary.
Implicit Types (self r : Chunk.t) (chunks : list Chunk.t).

Lemma demoted_present self chunks :
  Exists (λ r, Chunk.id r = Chunk.id self) chunks →
  Exists (λ r, Chunk.id r = Chunk.id self) (demoted self chunks).
Proof.
  rewrite !Exists_exists. intros (r & Hin & Hid).
  exists (if decide (Chunk.other_primaries self r)
          then Chunk.set_is_primary false r else r).
  split; [apply update_where_elem; eauto | by case_decide].
Qed.

Lemma mark_as_primary_unfold self chunks :
  Exists (λ r, Chunk.id r = Chunk.id self) chunks →
  Chunk.mark_as_primary self chunks
  = if Chunk.is_primary self then Ok (self, demoted self chunks)
    else Ok (Chunk.set_is_primary true self,
             promoted self (demoted self chunks)).
Proof.
  intros Hrow. unfold Chunk.mark_as_primary.
  destruct (Chunk.is_primary self); simpl; [done|].
  rewrite save_fields_present by (by apply demoted_present). done.
Qed.

(** Whatever the instance holds, a completed call leaves no primary among
    the other replicas of its (file, ordinal). *)
Lemma mark_as_primary_others self chunks self' rows :
  Chunk.mark_as_primary self chunks = Ok (self', rows) →
  ∀ r, r ∈ rows → Chunk.file r = Chunk.file self →
    Chunk.chunk_number r = Chunk.chunk_number self →
    Chunk.id r ≠ Chunk.id self → Chunk.is_primary r = false.
Proof.
  unfold Chunk.mark_as_primary. fold (demoted self chunks).
  assert (∀ r, r ∈ demoted self chunks → Chunk.file r = Chunk.file self →
            Chunk.chunk_number r = Chunk.chunk_number self →
            Chunk.id r ≠ Chunk.id self → Chunk.is_primary r = false)
    as Hdemoted.
  { intros r Hr Hfile Hnum Hid.
    apply update_where_elem in Hr as (r0 & Hin & ->).
    destruct (decide (Chunk.other_primaries self r0)) as [|Hno]; [done|].
    destruct (Chunk.is_primary r0) eqn:Hp; [|done].
    destruct Hno. done. }
  destruct (Chunk.is_primary self); simpl.
  - intros [= <- <-]. done.
  - destruct (save_fields _ _ _ _) as [saved|] eqn:Hsave; [|done].
    simpl. intros [= <- <-]. apply save_fields_Ok in Hsave as [_ ->].
    intros r Hr Hfile Hnum Hid.
    apply update_where_elem in Hr as (r0 & Hin & ->). simpl in *.
    rewrite decide_False in * by (by case_decide). eauto.
Qed.



End primary.

(** C2 (code defect).  The claim: after [mark_as_primary] completes on a
    replica, that replica is primary and the other replicas of its (file,
    ordinal) are not.  A caller loads both replicas, promotes the second and
    then the first again through the instance it still holds.  The second
    call demotes the other replica but, reading [is_primary] from the
    instance in memory, skips the save: it completes and the (file, ordinal)
    has no primary replica at all. *)
Theorem mark_as_primary_stale_instance :
  ∃ rows1 rows2,
    Chunk.mark_as_primary replica_b [replica_a; replica_b]
    = Ok (Chunk.set_is_primary true replica_b, rows1)
    ∧ rows1 = [Chunk.set_is_primary false replica_a;
               Chunk.set_is_primary true replica_b]
    ∧ Chunk.mark_as_primary replica_a rows1 = Ok (replica_a, rows2)
    ∧ Chunk.is_primary <$> rows2 = [false; false]
    ∧ Chunk.id <$> rows2 = [Chunk.id replica_a; Chunk.id replica_b].
Proof. do 2 eexists. repeat split; reflexivity. Qed.

(** ** Upload validation *)

Section validation.
Import FileUploadSerializer.
Implicit Types (d : data) (v : validated_data).

Lemma IntegerField_value lo hi dflt input z :
  IntegerField (Some lo) (Some hi) (Some dflt) input = inr z →
  match input with
  | Omitted => z = dflt
  | Malformed => False
  | IntIn z' => z = z' ∧ (lo ≤ z ≤ hi)%Z
  end.
Proof.
  destruct input as [| |z']; simpl; [congruence|done|].
  repeat case_decide; simpl; intros [= <-]. lia.
Qed.

Lemma IntegerField_min_value lo dflt input z :
  IntegerField (Some lo) None (Some dflt) input = inr z →
  match input with
  | Omitted => z = dflt
  | Malformed => False
  | IntIn z' => z = z' ∧ (lo ≤ z)%Z
  end.
Proof.
  destruct input as [| |z']; simpl; [congruence|done|].
  case_decide; simpl; intros [= <-]. lia.
Qed.

Lemma validate_chunk_size_value value z :
  validate_chunk_size value = inr z → z = value ∧ (4096 | z)%Z.
Proof.
  unfold validate_chunk_size. case_decide as Hmod; [done|].
  intros [= <-]. split; [done|].
  by apply Z.mod_divide.
Qed.

(** What a request that passes validation was checked for. *)
Lemma is_valid_Ok d v :
  is_valid d = Ok v →
  FileField (file d) = inr (validated_file v)
  ∧ replication_factor_field (replication_factor d)
    = inr (validated_replication_factor v)
  ∧ ∃ size, chunk_size_field (chunk_size d) = inr size
            ∧ validate_chunk_size size = inr (validated_chunk_size v).
Proof.
  unfold is_valid, file_field.
  destruct (FileField (file d)) as [?|f];
    destruct (replication_factor_field _) as [?|rf];
    destruct (chunk_size_field _) as [?|size]; try done;
    destruct (validate_chunk_size _) as [?|cs] eqn:Hcs; try done.
  intros [= <-]. simpl. eauto.
Qed.

(** Validation raises nothing but [ValidationError]. *)
Lemma is_valid_Err d e :
  is_valid d = Err e → ∃ errors, e = ValidationError errors.
Proof.
  unfold is_valid, file_field.
  destruct (FileField (file d)) as [?|f];
    destruct (replication_factor_field _) as [?|rf];
    destruct (chunk_size_field _) as [?|size]; simpl;
    try destruct (validate_chunk_size _) as [?|cs];
    intros [= <-]; eauto.
Qed.

End validation.

(** ** Uploads *)

Section upload.
Context `{Hashlib}.
Import FileUploadSerializer.
Implicit Types (request : Request data) (db : DB) (f : UploadedFile).

Lemma FileField_value input f : FileField input = inr f → input = Some f.
Proof.
  destruct input as [f'|]; simpl; [|done].
  repeat case_decide; congruence.
Qed.

Lemma first_elem (rows : list File.t) r : File.first rows = Some r → r ∈ rows.
Proof.
  unfold File.first. intros Hhead. apply head_Some_elem_of in Hhead.
  by rewrite merge_sort_Permutation in Hhead.
Qed.

Lemma first_None (rows : list File.t) : File.first rows = None → rows = [].
Proof.
  unfold File.first. intros Hhead. apply head_None in Hhead.
  apply Permutation_nil_r. rewrite <- Hhead.
  symmetry. apply merge_sort_Permutation.
Qed.

Lemma create_ends request new_id now db :
  create_result request new_id now db
    (FileViewSet.create request new_id now db).
Proof.
  unfold FileViewSet.create.
  destruct (is_valid (request_data request)) as [v|e] eqn:Hvalid.
  - fold (same_content request (validated_file v)).
    destruct (File.first _) as [existing|] eqn:Hfirst.
    + apply first_elem, list_elem_of_filter in Hfirst as [Hsame Hin].
      by eapply create_conflict.
    + apply first_None in Hfirst.
      fold (file_record request (validated_file v) new_id now).
      assert (∀ r, r ∈ files db →
                ¬ same_content request (validated_file v) r) as Hnone.
      { intros r Hin Hsame.
        by apply (filter_nil_not_elem_of _ _ r Hfirst Hsame). }
      unfold File.create.
      case_decide as Hkey; [by eapply create_key_taken|].
      case_decide as Hclash; [by eapply create_key_taken|].
      apply create_inserted; [done|done|].
      intros r Hin Hid. apply Hkey, Exists_exists. eauto.
  - destruct (is_valid_Err _ _ Hvalid) as [errors ->].
    by apply create_invalid.
Qed.

End upload.

Section upload_claims.
Context `{Hashlib}.
Implicit Types (request : Request FileUploadSerializer.data) (db : DB).
Implicit Types (f : UploadedFile).

(** C3.  An upload whose name, digest and owner are those of a stored
    File is rejected as invalid or answered with 409 and the identity of
    a stored File of that digest and owner, and writes nothing; the
    database changes only by one appended File row, and only when no
    stored File has the digest and owner (so none has name, digest and
    owner); the uniqueness of (name, digest, owner) is kept. *)
Theorem create_never_duplicates request new_id now db :
  (∀ f, FileUploadSerializer.file (request_data request) = Some f →
     (∃ r, r ∈ files db ∧ File.name r = upload_name f
           ∧ File.checksum r = FileViewSet.file_checksum f
           ∧ File.user r = Some (request_user request)) →
     (FileViewSet.create request new_id now db).2 = db
     ∧ ((∃ errors, (FileViewSet.create request new_id now db).1
                   = Err (ValidationError errors))
        ∨ (∃ existing, existing ∈ files db
             ∧ File.checksum existing = FileViewSet.file_checksum f
             ∧ File.user existing = Some (request_user request)
             ∧ (FileViewSet.create request new_id now db).1
               = Ok {| status_code := HTTP_409_CONFLICT;
                       data := FileExists (File.id existing) |})))
  ∧ ((FileViewSet.create request new_id now db).2 ≠ db →
     ∃ f, FileUploadSerializer.file (request_data request) = Some f
       ∧ (FileViewSet.create request new_id now db).2
         = set_files (files db ++ [file_record request f new_id now]) db
       ∧ ¬ ∃ r, r ∈ files db ∧ File.name r = upload_name f
                ∧ File.checksum r = FileViewSet.file_checksum f
                ∧ File.user r = Some (request_user request))
  ∧ (File.unique_file_name_checksum_user (files db) →
     File.unique_file_name_checksum_user
       (files (FileViewSet.create request new_id now db).2)).
Proof.
  pose proof (create_ends request new_id now db) as Hend.
  remember (FileViewSet.create request new_id now db) as out eqn:Hout.
  clear Hout.
  destruct Hend as [errors Hvalid|v existing Hvalid Hin Hsame
                   |v Hvalid Hnone|v Hvalid Hnone Hkey row db']; simpl.
  - split; [eauto|]. split; [done|done].
  - split; [|split; [done|done]].
    intros f Hfile _. split; [done|]. right.
    apply is_valid_Ok in Hvalid as (Hf & _).
    apply FileField_value in Hf. rewrite Hfile in Hf.
    injection Hf as ->. destruct Hsame. eauto 10.
  - split; [|split; [done|done]].
    intros f Hfile (r & Hr & _ & Hsum & Huser). exfalso.
    apply is_valid_Ok in Hvalid as (Hf & _).
    apply FileField_value in Hf. rewrite Hfile in Hf.
    injection Hf as ->. by apply (Hnone r Hr).
  - apply is_valid_Ok in Hvalid as (Hf & _).
    apply FileField_value in Hf. split; [|split].
    + intros f Hfile (r & Hr & _ & Hsum & Huser). exfalso.
      rewrite Hfile in Hf. injection Hf as ->.
      by apply (Hnone r Hr).
    + intros _. exists (FileUploadSerializer.validated_file v). split; [done|].
      split; [done|]. intros (r & Hr & _ & Hsum & Huser).
      by apply (Hnone r Hr).
    + intros Huniq r1 r2 Hr1 Hr2.
      apply elem_of_app in Hr1 as [Hr1|Hr1], Hr2 as [Hr2|Hr2];
        rewrite ?list_elem_of_singleton in *; subst.
      * by apply Huniq.
      * intros (_ & _ & Hsum & _ & Huser). by apply (Hnone r1 Hr1).
      * intros (_ & _ & Hsum & _ & Huser). apply (Hnone r2 Hr2).
        split; [done|]. done.
      * intros (Hid & _). done.
Qed.

End upload_claims.

Section validation_claims.
Context `{Hashlib}.
Implicit Types (request : Request FileUploadSerializer.data) (db : DB).

(** C8.  An upload that names a chunk size which is not a positive
    multiple of 4096 (or not an integer at all) is refused with a
    validation error and the database is left as it was: no File and no
    Chunk row is written. *)
Theorem invalid_chunk_size_rejected request new_id now db :
  FileUploadSerializer.chunk_size (request_data request) ≠ Omitted →
  (∀ z, FileUploadSerializer.chunk_size (request_data request) = IntIn z →
        ¬ positive_multiple 4096 z) →
  ∃ errors, FileViewSet.create request new_id now db
            = (Err (ValidationError errors), db).
Proof.
  intros Hgiven Hbad.
  destruct (FileUploadSerializer.is_valid (request_data request))
    as [v|e] eqn:Hvalid.
  - exfalso. apply is_valid_Ok in Hvalid as (_ & _ & size & Hfield & Hhook).
    apply IntegerField_min_value in Hfield.
    apply validate_chunk_size_value in Hhook as [Hsame Hdiv].
    rewrite Hsame in Hdiv.
    destruct (FileUploadSerializer.chunk_size _) as [| |z] eqn:Hsize;
      [done|done|].
    destruct Hfield as [-> Hmin]. apply (Hbad z); [done|].
    split; [lia|done].
  - destruct (is_valid_Err _ _ Hvalid) as [errors ->]. exists errors.
    unfold FileViewSet.create. by rewrite Hvalid.
Qed.

(** C9.  An upload whose replication factor is an integer outside 1..3,
    or not an integer, is refused with a validation error and the
    database is left as it was; a request that passes validation carries
    a replication factor within 1..3; an omitted replication factor is
    validated as 2 and an omitted chunk size as 1048576. *)
Theorem replication_factor_validated request new_id now db :
  (∀ z, FileUploadSerializer.replication_factor (request_data request)
        = IntIn z →
        ¬ (1 ≤ z ≤ 3)%Z →
        ∃ errors, FileViewSet.create request new_id now db
                  = (Err (ValidationError errors), db))
  ∧ (FileUploadSerializer.replication_factor (request_data request)
     = Malformed →
     ∃ errors, FileViewSet.create request new_id now db
               = (Err (ValidationError errors), db))
  ∧ (∀ v, FileUploadSerializer.is_valid (request_data request) = Ok v →
       (1 ≤ FileUploadSerializer.validated_replication_factor v ≤ 3)%Z
       ∧ (FileUploadSerializer.replication_factor (request_data request)
          = Omitted →
          FileUploadSerializer.validated_replication_factor v = 2%Z)
       ∧ (FileUploadSerializer.chunk_size (request_data request)
          = Omitted →
          FileUploadSerializer.validated_chunk_size v = 1048576%Z))
  ∧ FileUploadSerializer.replication_factor_field Omitted = inr 2%Z
  ∧ FileUploadSerializer.chunk_size_field Omitted = inr 1048576%Z
  ∧ FileUploadSerializer.validate_chunk_size 1048576 = inr 1048576%Z.
Proof.
  assert (∀ v, FileUploadSerializer.is_valid (request_data request) = Ok v →
            match FileUploadSerializer.replication_factor
                    (request_data request) with
            | Omitted =>
                FileUploadSerializer.validated_replication_factor v = 2%Z
            | Malformed => False
            | IntIn z =>
                FileUploadSerializer.validated_replication_factor v = z
                ∧ (1 ≤ z ≤ 3)%Z
            end) as Hrf.
  { intros v Hvalid. apply is_valid_Ok in Hvalid as (_ & Hfield & _).
    apply IntegerField_value in Hfield.
    destruct (FileUploadSerializer.replication_factor _);
      [done|done|]. destruct Hfield as [-> ?]. done. }
  assert (∀ e, FileUploadSerializer.is_valid (request_data request) = Err e →
            ∃ errors, FileViewSet.create request new_id now db
                      = (Err (ValidationError errors), db)) as Hrejected.
  { intros e Hvalid. destruct (is_valid_Err _ _ Hvalid) as [errors ->].
    exists errors. unfold FileViewSet.create. by rewrite Hvalid. }
  split; [|split; [|split; [|done]]].
  - intros z Hinput Hrange.
    destruct (FileUploadSerializer.is_valid (request_data request))
      as [v|e] eqn:Hvalid; [|eauto].
    specialize (Hrf v eq_refl). rewrite Hinput in Hrf. tauto.
  - intros Hinput.
    destruct (FileUploadSerializer.is_valid (request_data request))
      as [v|e] eqn:Hvalid; [|eauto].
    specialize (Hrf v eq_refl). by rewrite Hinput in Hrf.
  - intros v Hvalid. specialize (Hrf v Hvalid). split; [|split].
    + destruct (FileUploadSerializer.replication_factor _);
        [lia|done|lia].
    + intros Hinput. by rewrite Hinput in Hrf.
    + intros Hinput.
      apply is_valid_Ok in Hvalid as (_ & _ & size & Hfield & Hhook).
      rewrite Hinput in Hfield. injection Hfield as <-.
      by injection Hhook as <-.
Qed.

End validation_claims.

(** A concrete rejected chunk size: 5000 bytes. *)
Lemma invalid_chunk_size_rejected_witness :
  ∃ errors, FileViewSet.create (H := plain_hashlib) misaligned_upload 1 10
              empty_db
            = (Err (ValidationError errors), empty_db).
Proof.
  apply (invalid_chunk_size_rejected (H := plain_hashlib)
           misaligned_upload 1 10 empty_db).
  - discriminate.
  - intros z [= <-] [_ [k Hk]]. lia.
Defined.

(** A concrete rejected replication factor: four replicas. *)
Lemma replication_factor_validated_witness :
  ∃ errors, FileViewSet.create (H := plain_hashlib) four_replicas_upload 1 10
              empty_db
            = (Err (ValidationError errors), empty_db).
Proof.
  apply (proj1 (replication_factor_validated (H := plain_hashlib)
                  four_replicas_upload 1 10 empty_db) 4%Z).
  - reflexivity.
  - lia.
Defined.

(** The second upload of [hello.txt] by the same user. *)
Lemma create_never_duplicates_witness :
  (FileViewSet.create (H := plain_hashlib) hello_upload 2 20 hello_db).2
  = hello_db
  ∧ ((∃ errors,
        (FileViewSet.create (H := plain_hashlib) hello_upload 2 20 hello_db).1
        = Err (ValidationError errors))
     ∨ (∃ existing, existing ∈ files hello_db
          ∧ File.checksum existing
            = FileViewSet.file_checksum (H := plain_hashlib) hello_txt
          ∧ File.user existing = Some (request_user hello_upload)
          ∧ (FileViewSet.create (H := plain_hashlib) hello_upload 2 20
               hello_db).1
            = Ok {| status_code := HTTP_409_CONFLICT;
                    data := FileExists (File.id existing) |})).
Proof.
  apply (proj1 (create_never_duplicates (H := plain_hashlib)
                  hello_upload 2 20 hello_db) hello_txt).
  - reflexivity.
  - exists (file_record (H := plain_hashlib) hello_upload hello_txt 1 10).
    split; [apply list_elem_of_here|]. repeat split; reflexivity.
Defined.

(** ** Availability *)

(** C4 (counterexample).  A live file whose single chunk, ordinal 0, is
    still [uploading] is reported available although ordinal 0 has no
    completed chunk. *)
Lemma is_available_without_completed_chunk :
  ¬ (File.is_available draft_file [uploading_chunk] = true →
     File.is_deleted draft_file = false
     ∧ completed_chunk_per_ordinal draft_file [uploading_chunk]).
Proof.
  intros Hclaim. destruct (Hclaim eq_refl) as [_ Hcompleted].
  destruct (Hcompleted 0%N uploading_chunk) as (c & Hc & _ & _ & Hstatus);
    [apply list_elem_of_here|done|done|].
  apply list_elem_of_singleton in Hc as ->. discriminate.
Qed.

(** C4 (amended).  A file is available exactly when it is not soft-deleted
    and at least one chunk row, of any status and ordinal, refers to it; a
    File without any chunk row is not available. *)
Theorem is_available_iff (f : File.t) (chunks : list Chunk.t) :
  (File.is_available f chunks = true ↔
   File.is_deleted f = false ∧ ∃ c, c ∈ chunks ∧ Chunk.file c = File.id f)
  ∧ ((∀ c, c ∈ chunks → Chunk.file c ≠ File.id f) →
     File.is_available f chunks = false).
Proof.
  unfold File.is_available.
  assert (Exists (λ c, Chunk.file c = File.id f) chunks ↔
          ∃ c, c ∈ chunks ∧ Chunk.file c = File.id f) as Hex
    by apply Exists_exists.
  split.
  - rewrite andb_true_iff, negb_true_iff, bool_decide_eq_true. by rewrite Hex.
  - intros Hnone. apply andb_false_iff. right.
    apply bool_decide_eq_false. rewrite Hex. intros (c & Hc & Hfile).
    by apply (Hnone c).
Qed.

Lemma is_available_iff_witness :
  File.is_available draft_file [] = false.
Proof.
  apply (proj2 (is_available_iff draft_file [])).
  intros c Hc. by apply not_elem_of_nil in Hc.
Defined.

(** ** Node capacity *)

Section capacity.
Implicit Types (c : Chunk.t) (chunks : list Chunk.t).
Implicit Types (node : StorageNode.t) (nodes : list StorageNode.t).

Lemma used_space_foldl (rows : list Chunk.t) (start : Z) :
  foldl (λ acc c, acc + Z.of_N (Chunk.size c))%Z start rows
  = (start + foldl (λ acc c, acc + Z.of_N (Chunk.size c)) 0 rows)%Z.
Proof.
  revert start. induction rows as [|c rows IH]; intros start; simpl.
  - lia.
  - rewrite (IH (start + _)%Z), (IH (0 + _)%Z). lia.
Qed.

(** [used_space] is the sum of the sizes of the chunks on the node. *)
Lemma used_space_nil (pk : uuid) : Chunk.used_space pk [] = 0%Z.
Proof. done. Qed.

Lemma used_space_cons (pk : uuid) c chunks :
  Chunk.used_space pk (c :: chunks)
  = ((if decide (Chunk.storage_node c = pk) then Z.of_N (Chunk.size c)
      else 0) + Chunk.used_space pk chunks)%Z.
Proof.
  unfold Chunk.used_space. rewrite filter_cons.
  case_decide; simpl; [|lia]. by rewrite used_space_foldl.
Qed.

Lemma used_space_nonneg (pk : uuid) chunks :
  (0 ≤ Chunk.used_space pk chunks)%Z.
Proof.
  induction chunks as [|c chunks IH]; [done|].
  rewrite used_space_cons. case_decide; lia.
Qed.

(** The row [update_storage_metrics] writes. *)
Lemma update_storage_metrics_Ok node (used : Z) nodes :
  (StorageNode.capacity node - used ≤ StorageNode.BIGINT_MAX)%Z →
  Exists (λ r, StorageNode.id r = StorageNode.id node) nodes →
  StorageNode.update_storage_metrics node used nodes
  = Ok (recomputed used (StorageNode.capacity node) node,
        update_where (λ r, StorageNode.id r = StorageNode.id node)
          (recomputed used (StorageNode.capacity node)) nodes).
Proof.
  intros Hfits Hrow. unfold StorageNode.update_storage_metrics. simpl.
  rewrite decide_False by (unfold StorageNode.BIGINT_MAX in *; lia).
  rewrite save_fields_present by done. done.
Qed.

(** A deletion on an instance that has its key, for a node that has a row
    and a capacity the column holds, completes. *)
Lemma chunk_delete_completes (self : Chunk.instance) key node chunks nodes :
  Chunk.pk self = Some key →
  Chunk.get_storage_node self nodes = Ok node →
  Exists (λ r, StorageNode.id r = StorageNode.id node) nodes →
  (StorageNode.capacity node ≤ StorageNode.BIGINT_MAX)%Z →
  let rows := filter (λ c, Chunk.id c ≠ key) chunks in
  let used := Chunk.used_space (StorageNode.id node) rows in
  Chunk.delete self chunks nodes
  = (Ok {| Chunk.pk := None;
           Chunk.storage_node_id := Chunk.storage_node_id self;
           Chunk.storage_node_cache :=
             Some (recomputed used (StorageNode.capacity node) node) |},
     (rows,
      update_where (λ r, StorageNode.id r = StorageNode.id node)
        (recomputed used (StorageNode.capacity node)) nodes)).
Proof.
  intros Hkey Hnode Hrow Hfits rows used. unfold Chunk.delete.
  rewrite Hnode, Hkey. fold rows. fold used.
  pose proof (used_space_nonneg (StorageNode.id node) rows).
  rewrite update_storage_metrics_Ok by (done || (fold used; lia)). done.
Qed.

(** C5 (amended).  A call of [Chunk.delete] on an instance that has its
    key, for a node that has a row, completes: it removes the rows of the
    chunk and rewrites the rows of the node.  [available] becomes the
    capacity held by the node instance of the chunk (the row read at the
    call, or the instance the chunk holds) minus the sum of the sizes of the
    chunks that remain on the node, floored at zero; [is_active] becomes
    true exactly when that is positive; [0 <= available] holds; and where
    the capacity held is the stored one, [available <= capacity] holds
    exactly when the capacity is not negative.  No other column and no
    other node is written. *)
Theorem delete_recomputes_available
    (self : Chunk.instance) key node chunks nodes :
  Chunk.pk self = Some key →
  Chunk.get_storage_node self nodes = Ok node →
  Exists (λ r, StorageNode.id r = StorageNode.id node) nodes →
  (StorageNode.capacity node ≤ StorageNode.BIGINT_MAX)%Z →
  let rows := filter (λ c, Chunk.id c ≠ key) chunks in
  let free := Z.max 0 (StorageNode.capacity node
                       - Chunk.used_space (StorageNode.id node) rows) in
  ∃ self' nodes',
    Chunk.delete self chunks nodes = (Ok self', (rows, nodes'))
    ∧ Chunk.pk self' = None
    ∧ length nodes' = length nodes
    ∧ ∀ i r r', nodes !! i = Some r → nodes' !! i = Some r' →
        if decide (StorageNode.id r = StorageNode.id node)
        then StorageNode.available r' = free
             ∧ (StorageNode.is_active r' = true
                ↔ (0 < StorageNode.available r')%Z)
             ∧ (0 ≤ StorageNode.available r')%Z
             ∧ node_identity r' = node_identity r
             ∧ StorageNode.last_heartbeat r' = StorageNode.last_heartbeat r
             ∧ (StorageNode.capacity r = StorageNode.capacity node →
                capacity_invariant r' ↔ (0 ≤ StorageNode.capacity r)%Z)
        else r' = r.
Proof.
  intros Hkey Hnode Hrow Hfits rows free.
  eexists _, _. split; [by eapply chunk_delete_completes|].
  split; [done|]. split; [apply update_where_length|].
  intros i r r' Hr. rewrite update_where_lookup, Hr. simpl.
  intros [= <-]. case_decide; [|done].
  pose proof (used_space_nonneg (StorageNode.id node) rows).
  simpl. fold rows. fold free.
  split; [done|]. split; [by rewrite bool_decide_eq_true|].
  split; [lia|]. split; [done|]. split; [done|].
  intros Hsame. unfold capacity_invariant. simpl. fold rows. fold free.
  rewrite Hsame. lia.
Qed.

End capacity.

(** C5 (counterexample).  Three chunk deletions after which the claim does
    not hold.  A chunk that holds its node as it was before the node was
    resized from a megabyte to 1000 bytes is deleted: the row of the node
    satisfied [0 <= available <= capacity] and ends with [available] above
    its capacity, which is not the capacity minus the size of the chunk that
    remains.  A file is deleted: its chunk goes with it and the node is not
    written.  And on a node of negative capacity the deletion completes with
    [available = 0], above the capacity. *)
Lemma chunk_deletion_not_recomputed :
  (capacity_invariant resized_node
   ∧ ∃ self' node',
       Chunk.delete block_a_before_resize [block_a; block_b] [resized_node]
       = (Ok self', ([block_b], [node']))
       ∧ StorageNode.capacity node' = 1000%Z
       ∧ StorageNode.available node' = 1048476%Z
       ∧ StorageNode.available node'
         ≠ Z.max 0 (StorageNode.capacity node'
                    - Chunk.used_space 100 [block_b])
       ∧ ¬ capacity_invariant node')
  ∧ (capacity_invariant draft_node
     ∧ StorageNode.available draft_node
       = Z.max 0 (StorageNode.capacity draft_node
                  - Chunk.used_space 100 (chunks draft_db))
     ∧ chunks (delete_file draft_file draft_db) = []
     ∧ nodes (delete_file draft_file draft_db) = [draft_node]
     ∧ StorageNode.available draft_node
       ≠ Z.max 0 (StorageNode.capacity draft_node
                  - Chunk.used_space 100
                      (chunks (delete_file draft_file draft_db))))
  ∧ ∃ self' node',
      Chunk.delete (Chunk.from_db uploading_chunk) [uploading_chunk]
        [negative_node]
      = (Ok self', ([], [node']))
      ∧ ¬ capacity_invariant node'.
Proof.
  split; [|split].
  - split; [unfold capacity_invariant; simpl; lia|].
    eexists _, _. split; [reflexivity|]. simpl.
    split; [done|]. split; [done|]. split; [done|].
    unfold capacity_invariant. vm_compute. intros [_ Hle]. by apply Hle.
  - split; [unfold capacity_invariant; simpl; lia|].
    repeat split; done.
  - eexists _, _. split; [reflexivity|].
    unfold capacity_invariant. vm_compute. intros [_ Hle]. by apply Hle.
Qed.

(** The only chunk of a one-megabyte node is deleted. *)
Lemma delete_recomputes_available_witness :
  ∃ self' node',
    Chunk.delete (Chunk.from_db uploading_chunk) [uploading_chunk]
      [megabyte_node]
    = (Ok self', ([], [node']))
    ∧ StorageNode.available node' = 1048576%Z
    ∧ StorageNode.is_active node' = true
    ∧ capacity_invariant node'.
Proof.
  destruct (delete_recomputes_available (Chunk.from_db uploading_chunk)
              30%N megabyte_node [uploading_chunk] [megabyte_node])
    as (self' & nodes' & Hcall & _ & Hlength & Hrows).
  - reflexivity.
  - reflexivity.
  - apply Exists_cons_hd. reflexivity.
  - unfold StorageNode.BIGINT_MAX. simpl. lia.
  - destruct nodes' as [|node' [|? ?]]; try discriminate Hlength.
    exists self', node'. split; [exact Hcall|].
    pose proof (Hrows 0%nat megabyte_node node' eq_refl eq_refl) as Hrow.
    rewrite decide_True in Hrow by reflexivity.
    destruct Hrow as (Havailable & Hactive & _ & _ & _ & Hbound).
    split; [exact Havailable|]. split.
    + apply Hactive. rewrite Havailable. reflexivity.
    + apply Hbound; [reflexivity|]. simpl. lia.
Defined.

(** ** Versions: restore *)

Section version_restore.
Implicit Types (version : FileVersion.t) (rows : list File.t) (db : DB).

(** A restore that completes rewrote the rows of the owning file, and
    nothing else in the table. *)
Lemma version_restore_Ok version (table : list File.t) f rows :
  FileVersion.restore version table = Ok (f, rows) →
  (∃ f0, File.get (FileVersion.file version) table = Some f0
         ∧ f = roll_back version f0)
  ∧ rows = update_where (λ r, File.id r = FileVersion.file version)
             (roll_back version) table.
Proof.
  unfold FileVersion.restore, File.get.
  destruct (get_by_pk _ _ table) as [f0|] eqn:Hget; [|done]. simpl.
  apply get_by_pk_Some in Hget as [Hin Hid].
  unfold File.save_size_checksum. simpl. case_decide; [done|].
  destruct (save_fields _ _ _ table) as [saved|] eqn:Hsave; [|done].
  simpl. intros [= <- <-]. apply save_fields_Ok in Hsave as [_ ->].
  rewrite Hid. split; [eauto|done].
Qed.

(** It completes whenever the owning file is stored and the restored
    digest does not collide with another file of the same name and
    owner. *)
Lemma version_restore_completes version (table : list File.t) f0 :
  File.get (FileVersion.file version) table = Some f0 →
  (∀ r r', r ∈ table → r' ∈ table →
     File.id r = FileVersion.file version →
     ¬ File.unique_clash (roll_back version r) r') →
  FileVersion.restore version table
  = Ok (roll_back version f0,
        update_where (λ r, File.id r = FileVersion.file version)
          (roll_back version) table).
Proof.
  intros Hget Hfree. unfold FileVersion.restore, File.get in *.
  rewrite Hget. simpl.
  pose proof (get_by_pk_present _ _ _ _ Hget) as Hrow.
  apply get_by_pk_Some in Hget as [Hin Hid].
  unfold File.save_size_checksum. simpl. rewrite Hid.
  rewrite decide_False.
  - rewrite save_fields_present by done. done.
  - rewrite Exists_exists. intros (r & Hr & Hkey & Hclash).
    apply Exists_exists in Hclash as (r' & Hr' & Hclash).
    by apply (Hfree r r').
Qed.

Lemma version_get_object_Ok user pk db version :
  FileVersionViewSet.get_object user pk db = Ok version →
  version ∈ versions db ∧ FileVersion.id version = pk.
Proof.
  unfold FileVersionViewSet.get_object, FileVersion.get,
    FileVersionViewSet.get_queryset.
  destruct (get_by_pk _ _ _) as [v|] eqn:Hget; [|done].
  intros [= ->]. apply get_by_pk_Some in Hget as [Hin Hpk].
  apply list_elem_of_filter in Hin. tauto.
Qed.


End version_restore.


(** ** Soft deletion *)

Section soft_delete.
Context `{Hashlib}.
Implicit Types (self r : File.t) (rows : list File.t) (db : DB).

Lemma update_where_ext {A} (P : A → Prop) `{∀ x, Decision (P x)}
    (f g : A → A) (table : list A) :
  (∀ x, f x = g x) → update_where P f table = update_where P g table.
Proof.
  intros Hfg. unfold update_where. apply list_fmap_ext.
  intros i x _. simpl. case_decide; [apply Hfg|done].
Qed.



Lemma soft_delete_Ok self now (table : list File.t) s rows :
  File.soft_delete self now table = Ok (s, rows) →
  s = mark_deleted now self
  ∧ Exists (λ r, File.id r = File.id self) table
  ∧ rows = update_where (λ r, File.id r = File.id self)
             (mark_deleted now) table.
Proof.
  unfold File.soft_delete. simpl.
  destruct (save_fields _ _ _ table) as [saved|] eqn:Hsave; [|done].
  simpl. intros [= <- <-]. apply save_fields_Ok in Hsave as [Hrow ->].
  done.
Qed.



End soft_delete.

Section soft_delete_claims.
Context `{Hashlib}.
Implicit Types (self r : File.t) (rows : list File.t) (db : DB).




End soft_delete_claims.



(** ** Versions: numbering *)

Section version_numbers.
Context `{Hashlib}.
Implicit Types (db : DB) (v : FileVersion.t) (table : list FileVersion.t).

Lemma file_get_object_Ok user pk db f :
  FileViewSet.get_object user pk db = Ok f →
  f ∈ files db ∧ File.id f = pk ∧ File.user f = Some user
  ∧ File.is_deleted f = false.
Proof.
  unfold FileViewSet.get_object, File.get, FileViewSet.get_queryset.
  destruct (get_by_pk _ _ _) as [f0|] eqn:Hget; [|done].
  intros [= ->]. apply get_by_pk_Some in Hget as [Hin Hpk].
  apply list_elem_of_filter in Hin as [Huser Hin].
  apply list_elem_of_filter in Hin as [Hlive Hin]. done.
Qed.







End version_numbers.


(** * Further properties *)

(** ** What one call does to each table *)

Section effects.
Context `{Hashlib}.
Implicit Types (db : DB) (o : op).

Lemma heartbeat_cases include_inactive pk now db :
  StorageNodeViewSet.heartbeat include_inactive pk now db = (Err Http404, db)
  ∧ StorageNodeViewSet.get_object include_inactive pk db = Err Http404
  ∨ ∃ node,
      StorageNodeViewSet.get_object include_inactive pk db = Ok node
      ∧ StorageNodeViewSet.heartbeat include_inactive pk now db
        = (Ok {| status_code := HTTP_200_OK;
                 data := Status "heartbeat received" |},
           set_nodes (update_where (λ r, StorageNode.id r = pk)
                        (StorageNode.set_last_heartbeat now) (nodes db)) db).
Proof.
  unfold StorageNodeViewSet.heartbeat, StorageNodeViewSet.get_object,
    StorageNode.get.
  destruct (get_by_pk _ _ _) as [node|] eqn:Hget; simpl; [|by left].
  right. exists node. split; [done|].
  apply get_by_pk_Some in Hget as [Hin Hid].
  assert (node ∈ nodes db) as Hnode.
  { unfold StorageNodeViewSet.get_queryset in Hin.
    destruct include_inactive; [done|].
    apply list_elem_of_filter in Hin. tauto. }
  unfold StorageNode.update_heartbeat. simpl.
  rewrite save_fields_present by (apply Exists_exists; eauto).
  simpl. by rewrite Hid.
Qed.

Lemma verify_cases user pk now db :
  ChunkViewSet.verify user pk now db = (Err Http404, db)
  ∧ ChunkViewSet.get_object user pk db = Err Http404
  ∨ ∃ chunk,
      ChunkViewSet.get_object user pk db = Ok chunk
      ∧ ChunkViewSet.verify user pk now db
        = (Ok {| status_code := HTTP_200_OK; data := Valid true |},
           set_chunks (update_where (λ r, Chunk.id r = pk)
                         (verified (Chunk.checksum chunk) now) (chunks db))
             db).
Proof.
  destruct (ChunkViewSet.get_object user pk db) as [chunk|e] eqn:Hget.
  - right. exists chunk. split; [done|]. by apply verify_always_valid.
  - left. unfold ChunkViewSet.verify. rewrite Hget.
    unfold ChunkViewSet.get_object in Hget.
    destruct (Chunk.get _ _); simplify_eq/=. done.
Qed.

Lemma version_restore_cases user pk db :
  (∃ e, FileVersionViewSet.restore user pk db = (Err e, db))
  ∨ ∃ version f,
      FileVersionViewSet.get_object user pk db = Ok version
      ∧ (∃ f0, File.get (FileVersion.file version) (files db) = Some f0
               ∧ f = roll_back version f0)
      ∧ FileVersionViewSet.restore user pk db
        = (Ok {| status_code := HTTP_200_OK;
                 data := FileSerializer f
                           (set_files
                              (update_where
                                 (λ r, File.id r = FileVersion.file version)
                                 (roll_back version) (files db)) db) |},
           set_files (update_where
                        (λ r, File.id r = FileVersion.file version)
                        (roll_back version) (files db)) db).
Proof.
  unfold FileVersionViewSet.restore.
  destruct (FileVersionViewSet.get_object user pk db) as [version|e]
    eqn:Hget; [|eauto].
  destruct (FileVersion.restore version (files db)) as [[f rows]|e]
    eqn:Hrestore; [|eauto].
  right. apply version_restore_Ok in Hrestore as [Hrow ->]. eauto.
Qed.


Lemma create_version_Ok request pk new_id now db response db' :
  FileViewSet.create_version request pk new_id now db = (Ok response, db') →
  ∃ f, FileViewSet.get_object (request_user request) pk db = Ok f
    ∧ response = {| status_code := HTTP_201_CREATED;
                    data := FileVersionData
                              (snapshot_of request f new_id now
                                 (versions db)) |}
    ∧ db' = set_versions
              (versions db
               ++ [snapshot_of request f new_id now (versions db)]) db
    ∧ ∀ v, v ∈ versions db → FileVersion.id v ≠ new_id.
Proof.
  unfold FileViewSet.create_version.
  destruct (FileViewSet.get_object _ pk db) as [f|e] eqn:Hget; [|done].
  fold (snapshot_of request f new_id now (versions db)).
  unfold FileVersion.create.
  case_decide; [done|]. case_decide as Hkey; [done|].
  case_decide; [done|]. intros [= <- <-]. exists f.
  repeat split. intros v Hv Hid. apply Hkey, Exists_exists. eauto.
Qed.

Lemma create_version_Err request pk new_id now db e db' :
  FileViewSet.create_version request pk new_id now db = (Err e, db') →
  db' = db.
Proof.
  unfold FileViewSet.create_version.
  destruct (FileViewSet.get_object _ pk db) as [f|e0]; [|congruence].
  destruct (FileVersion.create _ _); congruence.
Qed.

End effects.

(** ** What the actions of views.py never do *)

Section never.
Context `{Hashlib}.
Implicit Types (db : DB) (o : op) (ops : list op).

Lemma set_chunks_both (rows : list Chunk.t) db :
  set_chunks rows db = set_nodes (nodes db) (set_chunks rows db).
Proof. by destruct db. Qed.

Lemma set_nodes_both (rows : list StorageNode.t) db :
  set_nodes rows db = set_nodes rows (set_chunks (chunks db) db).
Proof. by destruct db. Qed.

(** An action rewrites chunk and node rows in place, or rewrites and
    appends File rows, or appends one version. *)
Lemma action_shape o db :
  is_action o = true →
  (∃ rows rows_n,
     exec o db = set_nodes rows_n (set_chunks rows db)
     ∧ chunk_identity <$> rows = chunk_identity <$> chunks db
     ∧ Chunk.is_primary <$> rows = Chunk.is_primary <$> chunks db
     ∧ node_identity <$> rows_n = node_identity <$> nodes db
     ∧ StorageNode.available <$> rows_n = StorageNode.available <$> nodes db
     ∧ StorageNode.is_active <$> rows_n = StorageNode.is_active <$> nodes db)
  ∨ (∃ rows,
       exec o db = set_files rows db
       ∧ file_identity <$> files db `prefix_of` file_identity <$> rows)
  ∨ (∃ v,
       exec o db = set_versions (versions db ++ [v]) db
       ∧ ∀ w, w ∈ versions db → FileVersion.id w ≠ FileVersion.id v).
Proof.
  intros Haction.
  assert (∀ db', db' = db →
            ∃ rows rows_n,
              db' = set_nodes rows_n (set_chunks rows db)
              ∧ chunk_identity <$> rows = chunk_identity <$> chunks db
              ∧ Chunk.is_primary <$> rows = Chunk.is_primary <$> chunks db
              ∧ node_identity <$> rows_n = node_identity <$> nodes db
              ∧ StorageNode.available <$> rows_n
                = StorageNode.available <$> nodes db
              ∧ StorageNode.is_active <$> rows_n
                = StorageNode.is_active <$> nodes db)
    as Hsame.
  { intros db' ->. exists (chunks db), (nodes db). by destruct db. }
  destruct o; try discriminate Haction; simpl.
  - destruct (create_ends request new_id now db); simpl;
      [left; by apply Hsame..|].
    right; left. eexists. split; [done|].
    rewrite fmap_app. by apply prefix_app_r.
  - destruct (FileViewSet.create_version request pk new_id now db)
      as [[response|e] db'] eqn:Hcall; simpl.
    + apply create_version_Ok in Hcall as (f & _ & _ & -> & Hfresh).
      right; right. eauto.
    + apply create_version_Err in Hcall. left. by apply Hsame.
  - destruct (verify_cases user pk now db) as [[-> _]|(chunk & _ & ->)];
      simpl; [left; by apply Hsame|].
    left. eexists _, _. split; [apply set_chunks_both|].
    split; [by rewrite update_where_column|].
    split; [by rewrite update_where_column|]. done.
  - destruct (version_restore_cases user pk db)
      as [[e ->]|(version & f & _ & _ & ->)]; simpl;
      [left; by apply Hsame|].
    right; left. eexists. split; [done|].
    by rewrite update_where_column.
  - destruct (heartbeat_cases include_inactive pk now db)
      as [[-> _]|(node & _ & ->)]; simpl; [left; by apply Hsame|].
    left. eexists _, _. split; [apply set_nodes_both|].
    split; [done|]. split; [done|].
    split; [by apply update_where_column|].
    split; by apply update_where_column.
Qed.

Lemma run_snoc ops o db : run (ops ++ [o]) db = exec o (run ops db).
Proof. unfold run. by rewrite foldl_app. Qed.

Lemma actions_only_snoc ops o :
  actions_only (ops ++ [o]) → actions_only ops ∧ is_action o = true.
Proof.
  unfold actions_only. rewrite Forall_app, Forall_singleton. done.
Qed.

Lemma run_versions_prefix ops db :
  actions_only ops → versions db `prefix_of` versions (run ops db).
Proof.
  induction ops as [|o ops IH] using rev_ind; [done|].
  intros [Hops Ho]%actions_only_snoc.
  rewrite run_snoc. etrans; [by apply IH|].
  destruct (action_shape o (run ops db) Ho)
    as [(rows & rows_n & -> & _)|[(rows & -> & _)|(v & -> & _)]]; simpl;
    [done|done|]. by apply prefix_app_r.
Qed.

Lemma run_files_prefix ops db :
  actions_only ops →
  file_identity <$> files db `prefix_of` file_identity <$> files (run ops db).
Proof.
  induction ops as [|o ops IH] using rev_ind; [done|].
  intros [Hops Ho]%actions_only_snoc.
  rewrite run_snoc. etrans; [by apply IH|].
  destruct (action_shape o (run ops db) Ho)
    as [(rows & rows_n & -> & _)|[(rows & -> & Hrows)|(v & -> & _)]]; simpl;
    done.
Qed.

Lemma run_chunks_kept ops db :
  actions_only ops →
  chunk_identity <$> chunks (run ops db) = chunk_identity <$> chunks db
  ∧ Chunk.is_primary <$> chunks (run ops db) = Chunk.is_primary <$> chunks db.
Proof.
  induction ops as [|o ops IH] using rev_ind; [done|].
  intros [Hops Ho]%actions_only_snoc.
  rewrite run_snoc. destruct (IH Hops) as [<- <-].
  destruct (action_shape o (run ops db) Ho)
    as [(rows & rows_n & -> & ? & ? & _)|[(rows & -> & _)|(v & -> & _)]];
    simpl; done.
Qed.

Lemma run_nodes_kept ops db :
  actions_only ops →
  node_identity <$> nodes (run ops db) = node_identity <$> nodes db
  ∧ StorageNode.available <$> nodes (run ops db)
    = StorageNode.available <$> nodes db
  ∧ StorageNode.is_active <$> nodes (run ops db)
    = StorageNode.is_active <$> nodes db.
Proof.
  induction ops as [|o ops IH] using rev_ind; [done|].
  intros [Hops Ho]%actions_only_snoc.
  rewrite run_snoc. destruct (IH Hops) as (<- & <- & <-).
  destruct (action_shape o (run ops db) Ho)
    as [(rows & rows_n & -> & _ & _ & ? & ? & ?)
       |[(rows & -> & _)|(v & -> & _)]];
    simpl; done.
Qed.

(** X1.  [create], [create_version], [verify], [restore] and [heartbeat]
    leave the stored versions alone: after any sequence of these actions
    the FileVersion table is the initial one with rows added at its end; no
    stored version is rewritten, removed or reordered. *)
Theorem versions_never_change ops db :
  actions_only ops → versions db `prefix_of` versions (run ops db).
Proof. apply run_versions_prefix. Qed.

(** X2.  [create], [create_version], [verify], [restore] and [heartbeat]
    remove no File row and write no column of a stored File row but [size]
    and [checksum]: after any sequence of these actions the other columns
    of the File table, [is_deleted] and [deleted_at] among them, are the
    initial ones with rows added at the end. *)
Theorem files_keep_identity ops db :
  actions_only ops →
  file_identity <$> files db `prefix_of` file_identity <$> files (run ops db).
Proof. apply run_files_prefix. Qed.

(** X3.  [create], [create_version], [verify], [restore] and [heartbeat]
    add and remove no Chunk row and write no column of one but
    [stored_checksum] and [last_verified_at]: after any sequence of these
    actions the key, file, node, object key, ordinal, size, checksum,
    status and primary flag of every chunk are the initial ones.  In
    particular no action moves a chunk from [uploading] to [completed] or
    to [corrupted]. *)
Theorem chunks_never_created ops db :
  actions_only ops →
  chunk_identity <$> chunks (run ops db) = chunk_identity <$> chunks db
  ∧ Chunk.is_primary <$> chunks (run ops db) = Chunk.is_primary <$> chunks db.
Proof. apply run_chunks_kept. Qed.

(** X4.  [create], [create_version], [verify], [restore] and [heartbeat]
    add and remove no StorageNode row and write no column of one but
    [last_heartbeat]: capacity, available space and the active flag of every
    node stay what they were. *)
Theorem nodes_keep_capacity ops db :
  actions_only ops →
  node_identity <$> nodes (run ops db) = node_identity <$> nodes db
  ∧ StorageNode.available <$> nodes (run ops db)
    = StorageNode.available <$> nodes db
  ∧ StorageNode.is_active <$> nodes (run ops db)
    = StorageNode.is_active <$> nodes db.
Proof. apply run_nodes_kept. Qed.

(** X5.  A file that no chunk row refers to stays unavailable after any
    sequence of [create], [create_version], [verify], [restore] and
    [heartbeat]: an upload stores no chunk, and none of the other actions
    creates one. *)
Theorem chunkless_file_never_available ops db (f : File.t) :
  actions_only ops →
  (∀ c, c ∈ chunks db → Chunk.file c ≠ File.id f) →
  File.is_available f (chunks (run ops db)) = false.
Proof.
  intros Hops Hnone. unfold File.is_available. apply andb_false_iff. right.
  apply bool_decide_eq_false. rewrite Exists_exists.
  intros (c & Hc & Hfile).
  assert (chunk_identity c ∈ chunk_identity <$> chunks db) as Horigin.
  { rewrite <- (proj1 (run_chunks_kept ops db Hops)).
    by apply list_elem_of_fmap_2. }
  apply list_elem_of_fmap in Horigin as (c0 & Hsame & Hc0).
  apply (Hnone c0 Hc0). unfold chunk_identity in Hsame. congruence.
Qed.

End never.

(** The edited [hello.txt] is rolled back to version 50 and snapshotted as
    version 51: the version that was stored stays the first one. *)
Lemma versions_never_change_witness :
  versions edited_db
  `prefix_of` versions (run (H := plain_hashlib)
                          [RestoreVersion 7 50;
                           CreateVersion snapshot_request 1 51 12] edited_db)
  ∧ FileVersion.id
    <$> versions (run (H := plain_hashlib)
                    [RestoreVersion 7 50;
                     CreateVersion snapshot_request 1 51 12] edited_db)
    = [50%N; 51%N].
Proof.
  split; [|reflexivity].
  apply (versions_never_change (H := plain_hashlib)).
  repeat constructor.
Defined.

(** A restore of version 50 rewrites the size of [hello.txt], not its
    name. *)
Lemma files_keep_identity_witness :
  file_identity <$> files edited_db
  `prefix_of` file_identity
              <$> files (run (H := plain_hashlib) [RestoreVersion 7 50]
                           edited_db)
  ∧ File.size <$> files edited_db = [9%Z]
  ∧ File.size <$> files (run (H := plain_hashlib) [RestoreVersion 7 50]
                           edited_db) = [5%Z].
Proof.
  split; [|split; reflexivity].
  apply (files_keep_identity (H := plain_hashlib)).
  repeat constructor.
Defined.

(** Both replicas of [report.txt] are verified by their owner. *)
Lemma chunks_never_created_witness :
  chunk_identity
  <$> chunks (run (H := plain_hashlib) [Verify 7 10 60; Verify 7 11 61]
                altered_db)
  = chunk_identity <$> [altered_chunk; sibling_chunk]
  ∧ Chunk.last_verified_at
    <$> chunks (run (H := plain_hashlib) [Verify 7 10 60; Verify 7 11 61]
                  altered_db)
    = [Some 60%Z; Some 61%Z].
Proof.
  split; [|reflexivity].
  apply (chunks_never_created (H := plain_hashlib)
           [Verify 7 10 60; Verify 7 11 61] altered_db).
  repeat constructor.
Defined.

(** A heartbeat of the draft node. *)
Lemma nodes_keep_capacity_witness :
  StorageNode.available
  <$> nodes (run (H := plain_hashlib) [Heartbeat false 100 70] draft_db)
  = [1044480%Z]
  ∧ StorageNode.last_heartbeat
    <$> nodes (run (H := plain_hashlib) [Heartbeat false 100 70] draft_db)
    = [70%Z].
Proof.
  split; [|reflexivity].
  destruct (nodes_keep_capacity (H := plain_hashlib)
              [Heartbeat false 100 70] draft_db) as (_ & Hkept & _).
  - repeat constructor.
  - exact Hkept.
Defined.

Lemma chunkless_file_never_available_witness :
  File.is_available
    (file_record (H := plain_hashlib) hello_upload hello_txt 1 10)
    (chunks (run (H := plain_hashlib) two_snapshots edited_db))
  = false.
Proof.
  apply (chunkless_file_never_available (H := plain_hashlib)).
  - repeat constructor.
  - intros c Hc. apply list_elem_of_singleton in Hc as ->. discriminate.
Defined.

(** ** Snapshot and restore *)

Section round_trip.
Context `{Hashlib}.
Implicit Types (db : DB).

(** X6.  A snapshot brings a file back: when [create_version] completes on
    a file and that version is restored later, in any database in which the
    version row of that key is still the one that was inserted, every row
    of the file carries the size and the checksum the file had when the
    snapshot was taken, whatever they were in between. *)
Theorem snapshot_restore_round_trip
    request pk new_id now db response db1 user db2 response' db3 :
  FileViewSet.create_version request pk new_id now db = (Ok response, db1) →
  (∀ v, v ∈ versions db2 → FileVersion.id v = new_id → v ∈ versions db1) →
  FileVersionViewSet.restore user new_id db2 = (Ok response', db3) →
  ∃ f0, FileViewSet.get_object (request_user request) pk db = Ok f0
    ∧ (∃ f, f ∈ files db3 ∧ File.id f = pk)
    ∧ ∀ f, f ∈ files db3 → File.id f = pk →
        File.size f = File.size f0 ∧ File.checksum f = File.checksum f0.
Proof.
  intros Hcreate Hkept Hrestore.
  apply create_version_Ok in Hcreate as (f0 & Hget & _ & -> & Hfresh).
  exists f0. split; [done|].
  set (v := snapshot_of request f0 new_id now (versions db)) in *.
  destruct (version_restore_cases user new_id db2)
    as [[e Herr]|(version & f & Hversion & (r0 & Hr0 & ->) & Hok)];
    [congruence|].
  rewrite Hok in Hrestore. injection Hrestore as _ <-.
  apply version_get_object_Ok in Hversion as [Hin Hid].
  assert (version = v) as ->.
  { apply Hkept in Hin; [|done]. simpl in Hin.
    apply elem_of_app in Hin as [Hold|Hnew].
    - by destruct (Hfresh version Hold).
    - by apply list_elem_of_singleton in Hnew. }
  apply file_get_object_Ok in Hget as (_ & Hpk & _).
  change (FileVersion.file v) with (File.id f0) in *. rewrite Hpk in *.
  apply get_by_pk_Some in Hr0 as [Hr0 Hkey]. simpl. split.
  - exists (roll_back v r0). split; [|done].
    apply update_where_elem. exists r0. by rewrite decide_True.
  - intros f Hf Hfid. apply update_where_elem in Hf as (r & Hr & ->).
    case_decide; [done|]. done.
Qed.

End round_trip.

(** The edited [hello.txt] is snapshotted as version 51, rolled back to
    version 50 and then restored to version 51. *)
Lemma snapshot_restore_round_trip_witness :
  ∃ f0, FileViewSet.get_object 7 1 edited_db = Ok f0
    ∧ File.size f0 = 9%Z
    ∧ (File.size
       <$> files (run (H := plain_hashlib) [RestoreVersion 7 50]
                    edited_snapshot_db)) = [5%Z]
    ∧ ∀ f, f ∈ files (FileVersionViewSet.restore 7 51
                        (run (H := plain_hashlib) [RestoreVersion 7 50]
                           edited_snapshot_db)).2 →
        File.id f = 1%N →
        File.size f = File.size f0 ∧ File.checksum f = File.checksum f0.
Proof.
  edestruct (snapshot_restore_round_trip snapshot_request 1 51 12 edited_db)
    with (user := 7%N)
         (db2 := run (H := plain_hashlib) [RestoreVersion 7 50]
                   edited_snapshot_db)
    as (f0 & Hget & _ & Hback).
  - reflexivity.
  - intros v Hv _. exact Hv.
  - reflexivity.
  - exists f0. split; [exact Hget|]. split.
    + injection Hget as <-. reflexivity.
    + split; [reflexivity|exact Hback].
Defined.

(** ** Who may call what *)

Section access.
Implicit Types (db : DB).

Lemma file_get_object_Err user pk db e :
  FileViewSet.get_object user pk db = Err e →
  e = Http404
  ∧ ¬ ∃ f, f ∈ files db ∧ File.id f = pk ∧ File.user f = Some user
           ∧ File.is_deleted f = false.
Proof.
  unfold FileViewSet.get_object, File.get, FileViewSet.get_queryset.
  destruct (get_by_pk _ _ _) as [f0|] eqn:Hget; [done|].
  intros [= <-]. split; [done|]. intros (f & Hin & Hid & Huser & Hlive).
  apply get_by_pk_None in Hget. apply Hget, Exists_exists. exists f.
  split; [|done]. apply list_elem_of_filter. split; [done|].
  by apply list_elem_of_filter.
Qed.

Lemma chunk_get_object_Err user pk db e :
  ChunkViewSet.get_object user pk db = Err e →
  e = Http404
  ∧ ¬ ∃ c f, c ∈ chunks db ∧ Chunk.id c = pk ∧ f ∈ files db
             ∧ File.id f = Chunk.file c ∧ File.user f = Some user.
Proof.
  unfold ChunkViewSet.get_object, Chunk.get, ChunkViewSet.get_queryset.
  destruct (get_by_pk _ _ _) as [c0|] eqn:Hget; [done|].
  intros [= <-]. split; [done|].
  intros (c & f & Hc & Hid & Hf & Hfile & Huser).
  apply get_by_pk_None in Hget. apply Hget, Exists_exists. exists c.
  split; [|done]. apply list_elem_of_filter. split; [|done].
  apply Exists_exists. eauto.
Qed.

Lemma chunk_get_object_owned user pk db c :
  ChunkViewSet.get_object user pk db = Ok c →
  ∃ f, f ∈ files db ∧ File.id f = Chunk.file c ∧ File.user f = Some user.
Proof.
  unfold ChunkViewSet.get_object, Chunk.get, ChunkViewSet.get_queryset.
  destruct (get_by_pk _ _ _) as [c0|] eqn:Hget; [|done].
  intros [= ->]. apply get_by_pk_Some in Hget as [Hin _].
  apply list_elem_of_filter in Hin as [Howned _].
  apply Exists_exists in Howned as (f & Hf & Hfile & Huser). eauto.
Qed.

(** X7.  A snapshot needs a live file of the requester: [create_version]
    answers 404 exactly when the requester owns no file of that key that is
    not soft-deleted; a snapshot that completes records the size and the
    checksum the file has at that moment, the requester and the note (the
    empty string when none is given), and every failure leaves the
    database as it was. *)
Theorem create_version_requires_live_owned_file request pk new_id now db :
  ((FileViewSet.create_version request pk new_id now db).1 = Err Http404
   ↔ ¬ ∃ f, f ∈ files db ∧ File.id f = pk
            ∧ File.user f = Some (request_user request)
            ∧ File.is_deleted f = false)
  ∧ (∀ response,
       (FileViewSet.create_version request pk new_id now db).1
       = Ok response →
       ∃ f, f ∈ files db ∧ File.id f = pk
         ∧ File.user f = Some (request_user request)
         ∧ File.is_deleted f = false
         ∧ (FileViewSet.create_version request pk new_id now db).2
           = set_versions
               (versions db
                ++ [snapshot_of request f new_id now (versions db)]) db)
  ∧ (∀ e, (FileViewSet.create_version request pk new_id now db).1 = Err e →
       (FileViewSet.create_version request pk new_id now db).2 = db).
Proof.
  destruct (FileViewSet.create_version request pk new_id now db)
    as [[response|e] db'] eqn:Hcall; simpl.
  - pose proof (create_version_Ok _ _ _ _ _ _ _ Hcall)
      as (f & Hget & _ & -> & _).
    apply file_get_object_Ok in Hget as (Hin & Hid & Huser & Hlive).
    split; [|split; [|done]].
    + split; [done|]. intros []. eauto 10.
    + intros ? _. eauto 10.
  - pose proof (create_version_Err _ _ _ _ _ _ _ Hcall) as ->.
    split; [|split; [done|done]].
    revert Hcall. unfold FileViewSet.create_version.
    destruct (FileViewSet.get_object _ pk db) as [f|e0] eqn:Hget.
    + apply file_get_object_Ok in Hget as (Hin & Hid & Huser & Hlive).
      unfold FileVersion.create. repeat case_decide; intros [= <-];
        (split; [done|intros []; eauto 10]).
    + apply file_get_object_Err in Hget as [-> Hnone]. by intros [= <-].
Qed.

(** X8.  A chunk can be verified only through a file of the requester:
    [verify] answers 404 and writes nothing exactly when no chunk of that
    key belongs to a file the requester owns; otherwise it rewrites only
    [stored_checksum] and [last_verified_at], and only in the rows of that
    key; it never touches the File, FileVersion and StorageNode tables. *)
Theorem verify_requires_owned_chunk user pk now db :
  ((ChunkViewSet.verify user pk now db).1 = Err Http404
   ↔ ¬ ∃ c f, c ∈ chunks db ∧ Chunk.id c = pk ∧ f ∈ files db
              ∧ File.id f = Chunk.file c ∧ File.user f = Some user)
  ∧ ((ChunkViewSet.verify user pk now db).1 = Err Http404 →
     (ChunkViewSet.verify user pk now db).2 = db)
  ∧ files (ChunkViewSet.verify user pk now db).2 = files db
  ∧ versions (ChunkViewSet.verify user pk now db).2 = versions db
  ∧ nodes (ChunkViewSet.verify user pk now db).2 = nodes db
  ∧ (∀ i c c', chunks db !! i = Some c →
       chunks (ChunkViewSet.verify user pk now db).2 !! i = Some c' →
       chunk_identity c' = chunk_identity c
       ∧ Chunk.is_primary c' = Chunk.is_primary c
       ∧ (Chunk.id c ≠ pk → c' = c)
       ∧ ((ChunkViewSet.verify user pk now db).1 ≠ Err Http404 →
          Chunk.id c = pk →
          Chunk.last_verified_at c' = Some now
          ∧ ∃ chunk, chunk ∈ chunks db ∧ Chunk.id chunk = pk
              ∧ Chunk.stored_checksum c' = Chunk.checksum chunk)).
Proof.
  destruct (verify_cases user pk now db)
    as [[-> Hget]|(chunk & Hget & ->)]; simpl.
  - apply chunk_get_object_Err in Hget as [_ Hnone].
    split; [done|]. do 4 (split; [done|]).
    intros i c c' Hc Hc'. assert (c' = c) as -> by congruence.
    repeat split; done.
  - pose proof (chunk_get_object_owned _ _ _ _ Hget) as (f & Hf & Hfile & Hu).
    apply chunk_get_object_Ok in Hget as [Hin Hid].
    split; [|split; [done|]].
    { split; [done|]. intros []. eauto 10. }
    do 3 (split; [done|]).
    intros i c c' Hc. rewrite update_where_lookup, Hc. simpl.
    intros [= <-]. case_decide; simpl; repeat split; try done. eauto.
Qed.

(** X9.  A heartbeat only stamps the time: [heartbeat] never changes
    [is_active], [available] or any other column of a node but
    [last_heartbeat], so it never brings an inactive node back; unless
    [include_inactive=true] is passed, a node whose rows are all inactive
    is answered with 404 and nothing is written; a heartbeat that completes
    sets [last_heartbeat] of every row of that key to the current time. *)
Theorem heartbeat_only_stamps include_inactive pk now db :
  StorageNode.is_active
  <$> nodes (StorageNodeViewSet.heartbeat include_inactive pk now db).2
  = StorageNode.is_active <$> nodes db
  ∧ StorageNode.available
    <$> nodes (StorageNodeViewSet.heartbeat include_inactive pk now db).2
    = StorageNode.available <$> nodes db
  ∧ node_identity
    <$> nodes (StorageNodeViewSet.heartbeat include_inactive pk now db).2
    = node_identity <$> nodes db
  ∧ (include_inactive = false →
     (∀ n, n ∈ nodes db → StorageNode.id n = pk →
           StorageNode.is_active n = false) →
     StorageNodeViewSet.heartbeat include_inactive pk now db
     = (Err Http404, db))
  ∧ (∀ response,
       (StorageNodeViewSet.heartbeat include_inactive pk now db).1
       = Ok response →
       (∃ n, n ∈ nodes db ∧ StorageNode.id n = pk
             ∧ (include_inactive = false → StorageNode.is_active n = true))
       ∧ ∀ n, n ∈ nodes
                    (StorageNodeViewSet.heartbeat include_inactive pk now
                       db).2 →
              StorageNode.id n = pk → StorageNode.last_heartbeat n = now).
Proof.
  destruct (heartbeat_cases include_inactive pk now db)
    as [[-> Hget]|(node & Hget & ->)]; simpl.
  - do 3 (split; [done|]). split; [done|]. done.
  - do 3 (split; [by apply update_where_column|]).
    unfold StorageNodeViewSet.get_object, StorageNode.get in Hget.
    destruct (get_by_pk _ _ _) as [n0|] eqn:Hrow; [|done].
    injection Hget as ->. apply get_by_pk_Some in Hrow as [Hin Hid].
    unfold StorageNodeViewSet.get_queryset in Hin. split.
    + intros -> Hinactive. exfalso.
      apply list_elem_of_filter in Hin as [Hactive Hin].
      rewrite (Hinactive node Hin Hid) in Hactive. done.
    + intros response _. split.
      * exists node. destruct include_inactive; [by repeat split|].
        apply list_elem_of_filter in Hin as [Hactive Hin]. done.
      * intros n Hn Hkey. apply update_where_elem in Hn as (r & Hr & ->).
        case_decide; [done|]. done.
Qed.

End access.

Lemma create_version_requires_live_owned_file_witness :
  let hello := file_record (H := plain_hashlib) hello_upload hello_txt 1 10 in
  (FileViewSet.create_version snapshot_request 1 50 31
     (exec (H := plain_hashlib) (SoftDelete hello 30) hello_db)).1
  = Err Http404.
Proof.
  intros hello.
  apply (proj1 (create_version_requires_live_owned_file snapshot_request 1 50
                  31 (exec (H := plain_hashlib) (SoftDelete hello 30)
                        hello_db))).
  intros (f & Hf & _ & _ & Hlive).
  assert (files (exec (H := plain_hashlib) (SoftDelete hello 30) hello_db)
          = [mark_deleted 30 hello]) as Hfiles by reflexivity.
  rewrite Hfiles in Hf. apply list_elem_of_singleton in Hf as ->.
  discriminate.
Defined.

Lemma verify_requires_owned_chunk_witness :
  (ChunkViewSet.verify 8 30 20 edited_db).1 = Err Http404
  ∧ (ChunkViewSet.verify 8 30 20 edited_db).2 = edited_db.
Proof.
  assert ((ChunkViewSet.verify 8 30 20 edited_db).1 = Err Http404) as Hnone.
  { apply (proj1 (verify_requires_owned_chunk 8 30 20 edited_db)).
    intros (c & f & _ & _ & Hf & _ & Huser).
    assert (files edited_db
            = [File.set_checksum "edited"
                 (File.set_size 9
                    (file_record (H := plain_hashlib) hello_upload hello_txt
                       1 10))]) as Hfiles by reflexivity.
    rewrite Hfiles in Hf. apply list_elem_of_singleton in Hf as ->.
    discriminate. }
  split; [exact Hnone|].
  apply (proj1 (proj2 (verify_requires_owned_chunk 8 30 20 edited_db))).
  exact Hnone.
Defined.

Lemma heartbeat_only_stamps_witness :
  StorageNodeViewSet.heartbeat false 100 20
    {| nodes := [megabyte_node]; files := []; chunks := [];
       versions := [] |}
  = (Err Http404,
     {| nodes := [megabyte_node]; files := []; chunks := [];
        versions := [] |}).
Proof.
  apply (heartbeat_only_stamps false 100 20
           {| nodes := [megabyte_node]; files := []; chunks := [];
              versions := [] |}); [reflexivity|].
  intros n Hn _. apply list_elem_of_singleton in Hn as ->. reflexivity.
Defined.

(** ** Node accounting *)

Section accounting.
Implicit Types (node : StorageNode.t) (nodes : list StorageNode.t).
Implicit Types (c : Chunk.t) (chunks : list Chunk.t).

Lemma recomputed_twice used capacity (r : StorageNode.t) :
  recomputed used capacity (recomputed used capacity r)
  = recomputed used capacity r.
Proof. by destruct r. Qed.

Lemma filter_all {A} (P : A → Prop) `{∀ x, Decision (P x)} (l : list A) :
  (∀ x, x ∈ l → P x) → filter P l = l.
Proof.
  induction l as [|x l IH]; intros HP; [done|].
  rewrite filter_cons, decide_True by (apply HP; left).
  f_equal. apply IH. intros y Hy. apply HP. by right.
Qed.

(** X10.  For a node that has a row, [update_storage_metrics] leaves the
    node active exactly when the used space is below its capacity; the
    space left is the difference, and zero once the capacity is reached;
    nothing but [available] and [is_active] of the rows of that node is
    written, and a second call with the same figure changes nothing.  A
    figure that leaves more than the column of [available] holds is refused
    with [DataError]. *)
Theorem update_storage_metrics_active_iff node (used : Z) nodes :
  Exists (λ r, StorageNode.id r = StorageNode.id node) nodes →
  ((StorageNode.BIGINT_MAX < StorageNode.capacity node - used)%Z →
   StorageNode.update_storage_metrics node used nodes = Err DataError)
  ∧ ((StorageNode.capacity node - used ≤ StorageNode.BIGINT_MAX)%Z →
     ∃ node' rows,
       StorageNode.update_storage_metrics node used nodes = Ok (node', rows)
       ∧ (StorageNode.is_active node' = true
          ↔ (used < StorageNode.capacity node)%Z)
       ∧ ((used ≤ StorageNode.capacity node)%Z →
          StorageNode.available node'
          = (StorageNode.capacity node - used)%Z)
       ∧ ((StorageNode.capacity node ≤ used)%Z →
          StorageNode.available node' = 0%Z)
       ∧ node_identity node' = node_identity node
       ∧ StorageNode.last_heartbeat node' = StorageNode.last_heartbeat node
       ∧ node_identity <$> rows = node_identity <$> nodes
       ∧ StorageNode.last_heartbeat <$> rows
         = StorageNode.last_heartbeat <$> nodes
       ∧ (∀ i r r', nodes !! i = Some r → rows !! i = Some r' →
            if decide (StorageNode.id r = StorageNode.id node)
            then StorageNode.available r' = StorageNode.available node'
                 ∧ StorageNode.is_active r' = StorageNode.is_active node'
            else r' = r)
       ∧ StorageNode.update_storage_metrics node' used rows
         = Ok (node', rows)).
Proof.
  intros Hrow. split.
  - intros Hover. unfold StorageNode.update_storage_metrics. simpl.
    rewrite decide_True by lia. done.
  - intros Hfits. eexists _, _.
    split; [by apply update_storage_metrics_Ok|]. simpl.
    split; [rewrite bool_decide_eq_true; lia|].
    split; [lia|]. split; [lia|]. split; [done|]. split; [done|].
    split; [by apply update_where_column|].
    split; [by apply update_where_column|]. split.
    + intros i r r' Hr. rewrite update_where_lookup, Hr. simpl.
      intros [= <-]. by case_decide.
    + rewrite update_storage_metrics_Ok.
      * simpl. rewrite recomputed_twice. f_equal. f_equal.
        rewrite update_where_twice by done.
        apply update_where_ext. intros r. apply recomputed_twice.
      * done.
      * simpl. apply Exists_exists in Hrow as (r & Hr & Hid).
        apply Exists_exists. eexists. split.
        { apply update_where_elem. exists r. split; [done|].
          by rewrite decide_True. }
        done.
Qed.

(** X11.  A chunk is deleted once: a [delete] on the instance a queryset
    built from a chunk row, for a node that has a row, completes and leaves
    no row of that key, and the instance loses its key; a second [delete]
    on the same instance raises [ValueError] and writes nothing; a
    [delete] on another instance of the same row completes and leaves the
    Chunk and StorageNode tables as the first one left them. *)
Theorem chunk_delete_twice c node chunks nodes :
  StorageNode.get (Chunk.storage_node c) nodes = Some node →
  (StorageNode.capacity node ≤ StorageNode.BIGINT_MAX)%Z →
  ∃ self' rows nodes',
    Chunk.delete (Chunk.from_db c) chunks nodes = (Ok self', (rows, nodes'))
    ∧ Chunk.pk self' = None
    ∧ (∀ r, r ∈ rows → Chunk.id r ≠ Chunk.id c)
    ∧ rows `sublist_of` chunks
    ∧ Chunk.delete self' rows nodes' = (Err ValueError, (rows, nodes'))
    ∧ Chunk.delete (Chunk.from_db c) rows nodes'
      = (Ok self', (rows, nodes')).
Proof.
  intros Hnode Hfits. unfold StorageNode.get in Hnode.
  pose proof (get_by_pk_Some _ _ _ _ Hnode) as [_ Hid].
  set (rows := filter (λ r, Chunk.id r ≠ Chunk.id c) chunks).
  set (used := Chunk.used_space (StorageNode.id node) rows).
  set (write := recomputed used (StorageNode.capacity node)).
  assert (∀ r, r ∈ rows → Chunk.id r ≠ Chunk.id c) as Hgone.
  { intros r Hr. apply list_elem_of_filter in Hr. tauto. }
  eexists _, rows, _. split.
  { apply (chunk_delete_completes _ (Chunk.id c) node); [done| |by eapply
      get_by_pk_present; rewrite Hid|done].
    unfold Chunk.get_storage_node, StorageNode.get. simpl.
    by rewrite Hnode. }
  split; [done|]. split; [done|]. split; [apply sublist_filter|].
  split; [done|].
  fold rows. fold used. fold write. rewrite Hid.
  assert (StorageNode.get (Chunk.storage_node c)
            (update_where (λ r, StorageNode.id r = Chunk.storage_node c)
               write nodes) = Some (write node)) as Hnode'
    by (by apply get_by_pk_update).
  rewrite (chunk_delete_completes (Chunk.from_db c) (Chunk.id c)
             (write node) rows); cycle 1.
  - done.
  - unfold Chunk.get_storage_node. simpl. by rewrite Hnode'.
  - change (StorageNode.id (write node)) with (StorageNode.id node).
    rewrite Hid. eapply get_by_pk_present. exact Hnode'.
  - done.
  - simpl. rewrite (filter_all _ rows) by done. fold used. rewrite Hid.
    unfold write. rewrite recomputed_twice.
    rewrite update_where_twice by done. done.
Qed.

End accounting.

Lemma update_storage_metrics_active_iff_witness :
  ∃ node' rows,
    StorageNode.update_storage_metrics megabyte_node 1048576 [megabyte_node]
    = Ok (node', rows)
    ∧ StorageNode.is_active node' = false
    ∧ StorageNode.available node' = 0%Z.
Proof.
  destruct (update_storage_metrics_active_iff megabyte_node 1048576
              [megabyte_node]) as [_ Hfits].
  - apply Exists_cons_hd. reflexivity.
  - destruct Hfits as (node' & rows & Hcall & Hactive & _ & Hfull & _).
    + unfold StorageNode.BIGINT_MAX. simpl. lia.
    + exists node', rows. split; [exact Hcall|]. split.
      * destruct (StorageNode.is_active node'); [|reflexivity].
        pose proof (proj1 Hactive eq_refl) as Hbelow. simpl in Hbelow. lia.
      * apply Hfull. reflexivity.
Defined.

(** The block that is left on the resized node is deleted, twice. *)
Lemma chunk_delete_twice_witness :
  ∃ self' nodes',
    Chunk.delete (Chunk.from_db block_b) [block_b] [resized_node]
    = (Ok self', ([], nodes'))
    ∧ StorageNode.available <$> nodes' = [1000%Z]
    ∧ Chunk.delete self' [] nodes' = (Err ValueError, ([], nodes'))
    ∧ Chunk.delete (Chunk.from_db block_b) [] nodes'
      = (Ok self', ([], nodes')).
Proof.
  destruct (chunk_delete_twice block_b resized_node [block_b] [resized_node])
    as (self' & rows & nodes' & Hcall & _ & _ & _ & Hsame & Hagain).
  - reflexivity.
  - unfold StorageNode.BIGINT_MAX. simpl. lia.
  - injection Hcall as <- <- <-.
    eexists _, _. split; [reflexivity|]. split; [reflexivity|].
    split; [exact Hsame|exact Hagain].
Defined.

(** ** More on uploads *)

Section upload_more.
Context `{Hashlib}.
Implicit Types (request : Request FileUploadSerializer.data) (db : DB).

Lemma newer_or_same_trans : Transitive File.newer_or_same.
Proof. unfold File.newer_or_same. intros a b c. lia. Qed.

Lemma newer_or_same_total : Total File.newer_or_same.
Proof. unfold File.newer_or_same. intros a b. lia. Qed.

(** [first] returns a row that is at least as recent as every other. *)
Lemma first_newest (rows : list File.t) x :
  File.first rows = Some x →
  ∀ r, r ∈ rows → (File.created_at r ≤ File.created_at x)%Z.
Proof.
  unfold File.first. intros Hhead r Hr.
  pose proof (@StronglySorted_merge_sort _ File.newer_or_same _
                newer_or_same_trans newer_or_same_total rows) as Hsorted.
  rewrite <- (merge_sort_Permutation File.newer_or_same) in Hr.
  destruct (merge_sort File.newer_or_same rows) as [|y sorted]; [done|].
  injection Hhead as ->. apply StronglySorted_inv in Hsorted as [_ Hall].
  apply elem_of_cons in Hr as [->|Hr]; [done|].
  rewrite Forall_forall in Hall. by apply Hall.
Qed.

(** X12.  An upload stores no chunk: [create] never writes a Chunk,
    StorageNode or FileVersion row, and what it answers and writes does
    not depend on the replication factor and the chunk size of the
    request, as long as they pass validation. *)
Theorem create_stores_no_chunk request new_id now db :
  chunks (FileViewSet.create request new_id now db).2 = chunks db
  ∧ nodes (FileViewSet.create request new_id now db).2 = nodes db
  ∧ versions (FileViewSet.create request new_id now db).2 = versions db
  ∧ ∀ request' v v',
      request_user request' = request_user request →
      FileUploadSerializer.file (request_data request')
      = FileUploadSerializer.file (request_data request) →
      FileUploadSerializer.is_valid (request_data request) = Ok v →
      FileUploadSerializer.is_valid (request_data request') = Ok v' →
      FileViewSet.create request' new_id now db
      = FileViewSet.create request new_id now db.
Proof.
  split; [|split; [|split]];
    try (destruct (create_ends request new_id now db); done).
  intros request' v v' Huser Hfile Hvalid Hvalid'.
  unfold FileViewSet.create. rewrite Hvalid, Hvalid', Huser.
  apply is_valid_Ok in Hvalid as (Hf & _), Hvalid' as (Hf' & _).
  apply FileField_value in Hf, Hf'. rewrite Hfile, Hf in Hf'.
  injection Hf' as ->. done.
Qed.

(** X13.  The 409 answer of [create] names a newest match: the file it
    points to is stored, has the digest of the upload and the requester
    as owner, whatever its name and whether or not it is soft-deleted, and
    no stored file of that digest and owner was created later. *)
Theorem conflict_names_newest_match request new_id now db file_id db' :
  FileViewSet.create request new_id now db
  = (Ok {| status_code := HTTP_409_CONFLICT; data := FileExists file_id |},
     db') →
  db' = db
  ∧ ∃ v existing,
      FileUploadSerializer.is_valid (request_data request) = Ok v
      ∧ existing ∈ files db ∧ File.id existing = file_id
      ∧ same_content request (FileUploadSerializer.validated_file v) existing
      ∧ ∀ r, r ∈ files db →
          same_content request (FileUploadSerializer.validated_file v) r →
          (File.created_at r ≤ File.created_at existing)%Z.
Proof.
  unfold FileViewSet.create.
  destruct (FileUploadSerializer.is_valid (request_data request))
    as [v|e] eqn:Hvalid; [|done].
  fold (same_content request (FileUploadSerializer.validated_file v)).
  destruct (File.first _) as [existing|] eqn:Hfirst.
  - intros [= <- <-]. split; [done|]. exists v, existing.
    pose proof (first_newest _ _ Hfirst) as Hnewest.
    apply first_elem, list_elem_of_filter in Hfirst as [Hsame Hin].
    do 4 (split; [done|]).
    intros r Hr Hmatch. apply Hnewest. by apply list_elem_of_filter.
  - destruct (File.create _ _); [|done]. intros [=].
Qed.

End upload_more.

Lemma create_stores_no_chunk_witness :
  FileViewSet.create (H := plain_hashlib)
    {| request_user := 7;
       request_data :=
         {| FileUploadSerializer.file := Some hello_txt;
            FileUploadSerializer.replication_factor := IntIn 3;
            FileUploadSerializer.chunk_size := IntIn 8192 |} |}
    1 10 empty_db
  = FileViewSet.create (H := plain_hashlib) hello_upload 1 10 empty_db.
Proof.
  eapply (create_stores_no_chunk (H := plain_hashlib) hello_upload 1 10
            empty_db); reflexivity.
Defined.

Lemma conflict_names_newest_match_witness :
  ∃ existing, existing ∈ files hello_db ∧ File.id existing = 1%N
    ∧ File.name existing = "hello.txt".
Proof.
  destruct (conflict_names_newest_match (H := plain_hashlib) hello_upload 2
              20 hello_db 1 hello_db eq_refl)
    as (_ & v & existing & _ & Hin & Hid & _).
  exists existing. split; [exact Hin|]. split; [exact Hid|].
  assert (files hello_db
          = [file_record (H := plain_hashlib) hello_upload hello_txt 1 10])
    as Hfiles by reflexivity.
  rewrite Hfiles in Hin. apply list_elem_of_singleton in Hin as ->.
  reflexivity.
Defined.

(** ** More on validation *)

Section validation_more.
Implicit Types (d : FileUploadSerializer.data).
Implicit Types (v : FileUploadSerializer.validated_data).

Lemma FileField_inr input f :
  FileField input = inr f ↔
  input = Some f ∧ upload_name f ≠ "" ∧ upload_size f ≠ 0%Z.
Proof.
  destruct input as [f'|]; simpl; [|split; [done|by intros [? _]]].
  repeat case_decide; split; try done.
  - intros [[= ->] [? _]]. done.
  - intros [[= ->] [_ ?]]. done.
  - intros [= ->]. done.
  - intros [[= ->] _]. done.
Qed.

Lemma replication_factor_inr input z :
  FileUploadSerializer.replication_factor_field input = inr z ↔
  match input with
  | Omitted => z = 2%Z
  | Malformed => False
  | IntIn z' => z = z' ∧ (1 ≤ z' ≤ 3)%Z
  end.
Proof.
  unfold FileUploadSerializer.replication_factor_field.
  destruct input as [| |z']; simpl; [split; congruence|done|].
  repeat case_decide; simpl; split; try done; try (intros [_ ?]; lia).
  - intros [= <-]. split; [done|lia].
  - intros [-> _]. done.
Qed.

Lemma chunk_size_inr input z :
  (∃ size, FileUploadSerializer.chunk_size_field input = inr size
           ∧ FileUploadSerializer.validate_chunk_size size = inr z) ↔
  match input with
  | Omitted => z = 1048576%Z
  | Malformed => False
  | IntIn z' => z = z' ∧ positive_multiple 4096 z'
  end.
Proof.
  unfold FileUploadSerializer.chunk_size_field, positive_multiple.
  destruct input as [| |z']; simpl.
  - split; [intros (size & [= <-] & [= <-]); done|].
    intros ->. by exists 1048576%Z.
  - split; [intros (size & ? & _); done|done].
  - split.
    + intros (size & Hfield & Hhook).
      apply validate_chunk_size_value in Hhook as [-> Hdiv].
      revert Hfield. case_decide; simpl; intros [= ->].
      split; [done|]. split; [lia|done].
    + intros (-> & Hpos & Hdiv). exists z'.
      assert (4096 ≤ z')%Z by (apply Z.divide_pos_le; done).
      rewrite decide_False by lia. simpl. split; [done|].
      unfold FileUploadSerializer.validate_chunk_size.
      rewrite decide_False; [done|].
      intros Hmod. apply Hmod. by apply Z.mod_divide.
Qed.

(** X14.  What passes validation: [is_valid] accepts a request exactly
    when it carries a named, non-empty file, a replication factor that is
    omitted (validated as 2) or an integer from 1 to 3, and a chunk size
    that is omitted (validated as 1048576) or a positive multiple of 4096;
    the validated data are the file and those two values. *)
Theorem is_valid_accepts_exactly d v :
  FileUploadSerializer.is_valid d = Ok v ↔
  (FileUploadSerializer.file d
   = Some (FileUploadSerializer.validated_file v)
   ∧ upload_name (FileUploadSerializer.validated_file v) ≠ ""
   ∧ upload_size (FileUploadSerializer.validated_file v) ≠ 0%Z)
  ∧ match FileUploadSerializer.replication_factor d with
    | Omitted => FileUploadSerializer.validated_replication_factor v = 2%Z
    | Malformed => False
    | IntIn z =>
        FileUploadSerializer.validated_replication_factor v = z
        ∧ (1 ≤ z ≤ 3)%Z
    end
  ∧ match FileUploadSerializer.chunk_size d with
    | Omitted => FileUploadSerializer.validated_chunk_size v = 1048576%Z
    | Malformed => False
    | IntIn z =>
        FileUploadSerializer.validated_chunk_size v = z
        ∧ positive_multiple 4096 z
    end.
Proof.
  rewrite <- FileField_inr, <- replication_factor_inr, <- chunk_size_inr.
  split.
  - intros Hvalid. apply is_valid_Ok in Hvalid. tauto.
  - intros (Hf & Hrf & size & Hsize & Hhook).
    unfold FileUploadSerializer.is_valid, FileUploadSerializer.file_field.
    rewrite Hf, Hrf, Hsize, Hhook. by destruct v.
Qed.

Lemma field_errors_elem {A} (field name : string) (r : list string + A) :
  field ∈ (FileUploadSerializer.field_errors name r).*1 ↔
  field = name ∧ ∃ e errors, r = inl (e :: errors).
Proof.
  unfold FileUploadSerializer.field_errors. destruct r as [errors|a].
  - rewrite <- list_fmap_compose. split.
    + intros Hin. apply list_elem_of_fmap in Hin as (e & -> & He).
      split; [done|]. destruct errors as [|e' errors]; [|eauto].
      by apply not_elem_of_nil in He.
    + intros (-> & e & errors' & [= ->]).
      apply list_elem_of_fmap. exists e. split; [done|left].
  - split; [intros Hin; by apply not_elem_of_nil in Hin|].
    intros (_ & e & errors & ?). done.
Qed.

(** A field that fails reports at least one error. *)
Lemma failing_iff_not_inr {A} (r : list string + A) :
  r ≠ inl [] →
  (∃ e errors, r = inl (e :: errors)) ↔ ∀ a, r ≠ inr a.
Proof.
  intros Hnonempty. destruct r as [[|e errors]|a]; [done|..].
  - split; [done|eauto].
  - split; [intros (? & ? & ?); done|]. intros Hno. by destruct (Hno a).
Qed.

Lemma FileField_reports input : FileField input ≠ inl [].
Proof. destruct input; simpl; [|done]. by repeat case_decide. Qed.

Lemma IntegerField_reports lo hi dflt input :
  IntegerField lo hi dflt input ≠ inl [].
Proof.
  destruct input as [| |z]; simpl; [by destruct dflt|done|].
  by destruct (_ ++ _).
Qed.

Lemma validate_chunk_size_reports value :
  FileUploadSerializer.validate_chunk_size value ≠ inl [].
Proof. unfold FileUploadSerializer.validate_chunk_size. by case_decide. Qed.

(** X15.  Every failing field is reported: the [ValidationError] of
    [is_valid] is never empty and names exactly the fields that fail, the
    file when it is missing, unnamed or empty, the replication factor when
    it is not an integer from 1 to 3, the chunk size when it is not a
    positive multiple of 4096, whatever the other fields are. *)
Theorem validation_reports_every_failing_field d errors :
  FileUploadSerializer.is_valid d = Err (ValidationError errors) →
  errors ≠ []
  ∧ ("file" ∈ errors.*1 ↔
     ¬ ∃ f, FileUploadSerializer.file d = Some f ∧ upload_name f ≠ ""
            ∧ upload_size f ≠ 0%Z)
  ∧ ("replication_factor" ∈ errors.*1 ↔
     FileUploadSerializer.replication_factor d = Malformed
     ∨ ∃ z, FileUploadSerializer.replication_factor d = IntIn z
            ∧ ¬ (1 ≤ z ≤ 3)%Z)
  ∧ ("chunk_size" ∈ errors.*1 ↔
     FileUploadSerializer.chunk_size d = Malformed
     ∨ ∃ z, FileUploadSerializer.chunk_size d = IntIn z
            ∧ ¬ positive_multiple 4096 z)
  ∧ ∀ field, field ∈ errors.*1 →
      field ∈ ["file"; "replication_factor"; "chunk_size"].
Proof.
  intros Hinvalid.
  set (F := FileField (FileUploadSerializer.file d)).
  set (RF := FileUploadSerializer.replication_factor_field
               (FileUploadSerializer.replication_factor d)).
  set (CS := match FileUploadSerializer.chunk_size_field
                     (FileUploadSerializer.chunk_size d) with
             | inr size => FileUploadSerializer.validate_chunk_size size
             | inl e => inl e
             end).
  assert (errors = FileUploadSerializer.field_errors "file" F
                   ++ FileUploadSerializer.field_errors
                        "replication_factor" RF
                   ++ FileUploadSerializer.field_errors "chunk_size" CS
          ∧ ¬ (∃ f rf cs, F = inr f ∧ RF = inr rf ∧ CS = inr cs))
    as [-> Hsome].
  { revert Hinvalid. unfold FileUploadSerializer.is_valid.
    fold F RF CS. unfold FileUploadSerializer.file_field. fold F.
    destruct F as [?|f], RF as [?|rf], CS as [?|cs]; intros [= <-];
      (split; [done|]); intros (? & ? & ? & ? & ? & ?); done. }
  assert (F ≠ inl []) as HF by apply FileField_reports.
  assert (RF ≠ inl []) as HRF by apply IntegerField_reports.
  assert (CS ≠ inl []) as HCS.
  { unfold CS. destruct (FileUploadSerializer.chunk_size_field _) eqn:Hcs.
    - rewrite <- Hcs. apply IntegerField_reports.
    - apply validate_chunk_size_reports. }
  assert ((∀ f, F ≠ inr f) ↔
          ¬ ∃ f, FileUploadSerializer.file d = Some f ∧ upload_name f ≠ ""
                 ∧ upload_size f ≠ 0%Z) as HFiff.
  { split.
    - intros Hno (f & Hf). apply (Hno f). by apply FileField_inr.
    - intros Hno f Hf. apply Hno. exists f. by apply FileField_inr. }
  assert ((∀ z, RF ≠ inr z) ↔
          FileUploadSerializer.replication_factor d = Malformed
          ∨ ∃ z, FileUploadSerializer.replication_factor d = IntIn z
                 ∧ ¬ (1 ≤ z ≤ 3)%Z) as HRFiff.
  { unfold RF. split.
    - intros Hno.
      destruct (FileUploadSerializer.replication_factor d) as [| |z].
      + by destruct (Hno 2%Z).
      + by left.
      + right. exists z. split; [done|]. intros Hrange. apply (Hno z).
        by apply replication_factor_inr.
    - intros [Hbad|(z & Hbad & Hrange)] z' Hok; rewrite Hbad in Hok;
        apply replication_factor_inr in Hok; [done|]. tauto. }
  assert ((∀ z, CS ≠ inr z) ↔
          FileUploadSerializer.chunk_size d = Malformed
          ∨ ∃ z, FileUploadSerializer.chunk_size d = IntIn z
                 ∧ ¬ positive_multiple 4096 z) as HCSiff.
  { assert (∀ z, CS = inr z ↔
              ∃ size, FileUploadSerializer.chunk_size_field
                        (FileUploadSerializer.chunk_size d) = inr size
                      ∧ FileUploadSerializer.validate_chunk_size size
                        = inr z) as Hcs.
    { intros z. unfold CS.
      destruct (FileUploadSerializer.chunk_size_field _) as [?|size].
      - split; [done|]. intros (? & ? & _). done.
      - split; [eauto|]. intros (? & [= <-] & ?). done. }
    split.
    - intros Hno.
      destruct (FileUploadSerializer.chunk_size d) as [| |z] eqn:Hd.
      + destruct (Hno 1048576%Z). by apply Hcs, chunk_size_inr.
      + by left.
      + right. exists z. split; [done|]. intros Hmult. apply (Hno z).
        by apply Hcs, chunk_size_inr.
    - intros [Hbad|(z & Hbad & Hmult)] z' Hok; apply Hcs, chunk_size_inr in Hok;
        rewrite Hbad in Hok; [done|]. tauto. }
  split; [|split; [|split; [|split]]].
  - intros Hnil. apply Hsome.
    apply app_eq_nil in Hnil as [HnF Hnil].
    apply app_eq_nil in Hnil as [HnRF HnCS].
    destruct F as [[|]|f], RF as [[|]|rf], CS as [[|]|cs]; try done.
    by exists f, rf, cs.
  - rewrite !fmap_app, !elem_of_app, !field_errors_elem.
    rewrite failing_iff_not_inr, HFiff by done.
    split; [intros [[_ ?]|[[? _]|[? _]]]; done|]. intros ?. by left.
  - rewrite !fmap_app, !elem_of_app, !field_errors_elem.
    rewrite (failing_iff_not_inr RF), HRFiff by done.
    split; [intros [[? _]|[[_ ?]|[? _]]]; done|]. intros ?. right. by left.
  - rewrite !fmap_app, !elem_of_app, !field_errors_elem.
    rewrite (failing_iff_not_inr CS), HCSiff by done.
    split; [intros [[? _]|[[? _]|[_ ?]]]; done|]. intros ?. right. by right.
  - intros field. rewrite !fmap_app, !elem_of_app, !field_errors_elem.
    intros [[-> _]|[[-> _]|[-> _]]];
      [left|right; left|right; right; left].
Qed.

End validation_more.

Lemma is_valid_accepts_exactly_witness :
  FileUploadSerializer.is_valid
    {| FileUploadSerializer.file := Some hello_txt;
       FileUploadSerializer.replication_factor := IntIn 3;
       FileUploadSerializer.chunk_size := IntIn 8192 |}
  = Ok {| FileUploadSerializer.validated_file := hello_txt;
          FileUploadSerializer.validated_replication_factor := 3;
          FileUploadSerializer.validated_chunk_size := 8192 |}.
Proof.
  apply is_valid_accepts_exactly. simpl. split.
  - split; [reflexivity|]. split; discriminate.
  - split; [split; [reflexivity|lia]|]. split; [reflexivity|].
    split; [lia|]. by exists 2%Z.
Defined.

(** A request with four replicas and chunks of 5000 bytes. *)
Lemma validation_reports_every_failing_field_witness :
  ∃ errors,
    FileUploadSerializer.is_valid
      {| FileUploadSerializer.file := Some hello_txt;
         FileUploadSerializer.replication_factor := IntIn 4;
         FileUploadSerializer.chunk_size := IntIn 5000 |}
    = Err (ValidationError errors)
    ∧ ("file" ∉ errors.*1)
    ∧ "replication_factor" ∈ errors.*1 ∧ "chunk_size" ∈ errors.*1.
Proof.
  eexists. split; [reflexivity|].
  destruct (validation_reports_every_failing_field
              {| FileUploadSerializer.file := Some hello_txt;
                 FileUploadSerializer.replication_factor := IntIn 4;
                 FileUploadSerializer.chunk_size := IntIn 5000 |} _ eq_refl)
    as (_ & Hfile & Hrf & Hcs & _).
  split; [|split].
  - intros Hin. apply Hfile in Hin. apply Hin. exists hello_txt.
    split; [reflexivity|]. split; discriminate.
  - apply Hrf. right. exists 4%Z. split; [reflexivity|lia].
  - apply Hcs. right. exists 5000%Z. split; [reflexivity|].
    intros [_ [k Hk]]. lia.
Defined.

(** ** The digest of an upload *)

Section digest.
Context `{Hashlib}.

Lemma chunks_upto_fold (h : hasher) fuel n (content : list Byte.byte) :
  (∀ h, sha256_update h [] = h) →
  (∀ h a b, sha256_update (sha256_update h a) b = sha256_update h (a ++ b)) →
  0 < n → length content ≤ fuel →
  foldl sha256_update h (chunks_upto fuel n content)
  = sha256_update h content.
Proof.
  intros Hnil Happ Hn. revert h content.
  induction fuel as [|fuel IH]; intros h content Hlen.
  - destruct content; [|simpl in Hlen; lia]. simpl. by rewrite Hnil.
  - destruct content as [|b content]; [simpl; by rewrite Hnil|].
    change (chunks_upto (S fuel) n (b :: content))
      with (take n (b :: content)
            :: chunks_upto fuel n (drop n (b :: content))).
    simpl foldl. rewrite IH.
    + by rewrite Happ, take_drop.
    + rewrite length_drop. simpl in *. lia.
Qed.

(** X16.  The digest of an upload is the digest of its whole content: for
    a hash that may be fed piecewise (feeding nothing changes nothing,
    feeding two blocks in turn is feeding their concatenation), reading
    the file in blocks of 8192 bytes gives [file_checksum] the value of
    one [update] with all the bytes, so equal contents have equal
    checksums whatever their names. *)
Theorem file_checksum_of_content (f : UploadedFile) :
  (∀ h, sha256_update h [] = h) →
  (∀ h a b, sha256_update (sha256_update h a) b = sha256_update h (a ++ b)) →
  FileViewSet.file_checksum f
  = hexdigest (sha256_update sha256 (upload_content f))
  ∧ ∀ g, upload_content g = upload_content f →
      FileViewSet.file_checksum g = FileViewSet.file_checksum f.
Proof.
  intros Hnil Happ.
  assert (∀ g, FileViewSet.file_checksum g
               = hexdigest (sha256_update sha256 (upload_content g)))
    as Hdigest.
  { intros g. unfold FileViewSet.file_checksum, upload_chunks.
    rewrite chunks_upto_fold; [done|done|done|lia|done]. }
  split; [done|]. intros g Hsame. by rewrite !Hdigest, Hsame.
Qed.

End digest.

Lemma file_checksum_of_content_witness :
  FileViewSet.file_checksum (H := plain_hashlib) hello_txt = "hello".
Proof.
  rewrite (proj1 (file_checksum_of_content (H := plain_hashlib) hello_txt
                    (@app_nil_r _) (λ h a b, eq_sym (app_assoc h a b)))).
  reflexivity.
Defined.

(** ** File types *)

Section file_types.
Implicit Types (f : File.t) (t s pre post rest : string).

Lemma prefix_append t rest : String.prefix t (t +:+ rest) = true.
Proof.
  induction t as [|a t IH]; simpl; [by destruct rest|].
  by destruct (Ascii.ascii_dec a a).
Qed.

Lemma prefix_split t s : String.prefix t s = true → ∃ rest, s = t +:+ rest.
Proof.
  revert s. induction t as [|a t IH]; intros s; simpl.
  - intros _. by exists s.
  - destruct s as [|b s]; simpl; [done|].
    destruct (Ascii.ascii_dec a b) as [->|]; [|done].
    intros Hprefix. destruct (IH s Hprefix) as [rest ->]. by exists rest.
Qed.

Lemma index_prefix t s :
  String.prefix t s = true → is_Some (String.index 0 t s).
Proof.
  destruct s as [|b s]; simpl.
  - destruct t; [by eexists|done].
  - intros ->. by eexists.
Qed.

Lemma index_later t a s :
  is_Some (String.index 0 t s) → is_Some (String.index 0 t (String a s)).
Proof.
  intros [n Hn]. simpl. rewrite Hn. by case_match.
Qed.

Lemma contains_append pre t post : contains t (pre +:+ t +:+ post) = true.
Proof.
  unfold contains. apply bool_decide_eq_true.
  induction pre as [|a pre IH].
  - apply (index_prefix t (t +:+ post)), prefix_append.
  - apply (index_later t a (pre +:+ t +:+ post)), IH.
Qed.

Lemma append_nonempty pre t post : t ≠ "" → pre +:+ t +:+ post ≠ "".
Proof. destruct pre; [|done]. by destruct t. Qed.

(** X17.  How [get_file_type] sorts content types: a file is an image
    exactly when its content type starts with [image/], whatever else the
    type contains; an empty content type is [other]; a content type that
    contains one of the document markers anywhere is an image or a
    document, and one that contains [zip], [rar], [tar], [7z] or [gz]
    anywhere is never [other]. *)
Theorem get_file_type_by_content_type f :
  (FileType.get_file_type f = "image"
   ↔ ∃ rest, File.content_type f = "image/" +:+ rest)
  ∧ (File.content_type f = "" → FileType.get_file_type f = "other")
  ∧ (∀ pre t post,
       t ∈ ["text/"; "application/pdf"; "application/msword";
            "application/vnd.openxmlformats-"] →
       File.content_type f = pre +:+ t +:+ post →
       FileType.get_file_type f = "image"
       ∨ FileType.get_file_type f = "document")
  ∧ (∀ pre t post,
       t ∈ ["zip"; "rar"; "tar"; "7z"; "gz"] →
       File.content_type f = pre +:+ t +:+ post →
       FileType.get_file_type f ≠ "other").
Proof.
  unfold FileType.get_file_type, FileType.is_image, FileType.is_document,
    FileType.is_archive, startswith.
  split; [|split; [|split]].
  - split.
    + destruct (bool_decide _ && String.prefix _ _) eqn:Himage.
      * intros _. apply andb_true_iff in Himage as [_ Hprefix].
        by apply prefix_split.
      * by repeat case_match.
    + intros [rest ->]. by rewrite prefix_append.
  - intros ->. done.
  - intros pre t post Ht Htype.
    destruct (bool_decide _ && String.prefix _ _); [by left|]. right.
    assert (bool_decide (File.content_type f ≠ "") = true) as ->.
    { apply bool_decide_eq_true. rewrite Htype. apply append_nonempty.
      intros ->. repeat (apply elem_of_cons in Ht as [?|Ht]; [done|]).
      by apply not_elem_of_nil in Ht. }
    assert (existsb (λ t, contains t (File.content_type f))
              ["text/"; "application/pdf"; "application/msword";
               "application/vnd.openxmlformats-"] = true) as ->; [|done].
    apply existsb_exists. exists t. split; [by apply list_elem_of_In|].
    rewrite Htype. apply contains_append.
  - intros pre t post Ht Htype.
    destruct (bool_decide _ && String.prefix _ _); [done|].
    assert (bool_decide (File.content_type f ≠ "") = true) as ->.
    { apply bool_decide_eq_true. rewrite Htype. apply append_nonempty.
      intros ->. repeat (apply elem_of_cons in Ht as [?|Ht]; [done|]).
      by apply not_elem_of_nil in Ht. }
    assert (existsb (λ t, contains t (File.content_type f))
              ["zip"; "rar"; "tar"; "7z"; "gz"] = true) as ->.
    { apply existsb_exists. exists t. split; [by apply list_elem_of_In|].
      rewrite Htype. apply contains_append. }
    simpl. by case_match.
Qed.

End file_types.

(** [image/x-zip] is an image, [application/gzip] an archive. *)
Lemma get_file_type_by_content_type_witness :
  FileType.get_file_type (typed_file "image/x-zip") = "image"
  ∧ FileType.get_file_type (typed_file "application/gzip") ≠ "other".
Proof.
  split.
  - apply (proj1 (get_file_type_by_content_type (typed_file "image/x-zip"))).
    by exists "x-zip".
  - apply (proj2 (proj2 (proj2 (get_file_type_by_content_type
                                 (typed_file "application/gzip"))))
             "application/g" "zip" "").
    + left.
    + reflexivity.
Defined.

(** ** Soft deletion and the views *)

Section hidden.
Context `{Hashlib}.
Implicit Types (self : File.t) (db : DB).
Implicit Types (request : Request FileUploadSerializer.data).

(** X18.  A soft-deleted file is hidden but still counts as stored: after
    [soft_delete] completes, no user gets the file from [get_object], it
    cannot be snapshotted and it is not available, yet an upload of the
    same content by its owner is still answered with 409, so the content
    cannot be uploaded again. *)
Theorem soft_deleted_file_hidden self now db s rows :
  File.soft_delete self now (files db) = Ok (s, rows) →
  (∀ user,
     FileViewSet.get_object user (File.id self)
       (exec (SoftDelete self now) db) = Err Http404)
  ∧ (∀ snapshot new_id now',
       FileViewSet.create_version snapshot (File.id self) new_id now'
         (exec (SoftDelete self now) db)
       = (Err Http404, exec (SoftDelete self now) db))
  ∧ (∀ r table, r ∈ files (exec (SoftDelete self now) db) →
       File.id r = File.id self → File.is_available r table = false)
  ∧ (∀ request v new_id now',
       FileUploadSerializer.is_valid (request_data request) = Ok v →
       (∃ r, r ∈ files db ∧ File.id r = File.id self
             ∧ same_content request
                 (FileUploadSerializer.validated_file v) r) →
       ∃ existing,
         existing ∈ files (exec (SoftDelete self now) db)
         ∧ FileViewSet.create request new_id now'
             (exec (SoftDelete self now) db)
           = (Ok {| status_code := HTTP_409_CONFLICT;
                    data := FileExists (File.id existing) |},
              exec (SoftDelete self now) db)).
Proof.
  intros Hdelete. simpl. rewrite Hdelete.
  apply soft_delete_Ok in Hdelete as (_ & _ & ->).
  set (db1 := set_files _ db).
  assert (∀ r, r ∈ files db1 → File.id r = File.id self →
               File.is_deleted r = true) as Hdeleted.
  { intros r Hr Hid. apply update_where_elem in Hr as (r0 & Hr0 & ->).
    case_decide; [done|]. done. }
  assert (∀ user, FileViewSet.get_object user (File.id self) db1
                  = Err Http404) as Hhidden.
  { intros user.
    destruct (FileViewSet.get_object user (File.id self) db1) as [f|e]
      eqn:Hget.
    - apply file_get_object_Ok in Hget as (Hf & Hid & _ & Hlive).
      rewrite (Hdeleted f Hf Hid) in Hlive. done.
    - by apply file_get_object_Err in Hget as [-> _]. }
  split; [done|]. split; [|split].
  - intros snapshot new_id now'. unfold FileViewSet.create_version.
    by rewrite Hhidden.
  - intros r table Hr Hid. unfold File.is_available.
    by rewrite (Hdeleted r Hr Hid).
  - intros request v new_id now' Hvalid (r & Hr & Hid & Hsame).
    unfold FileViewSet.create. rewrite Hvalid.
    fold (same_content request (FileUploadSerializer.validated_file v)).
    destruct (File.first _) as [existing|] eqn:Hfirst.
    + exists existing. split; [|done].
      apply first_elem, list_elem_of_filter in Hfirst. tauto.
    + exfalso. apply first_None in Hfirst.
      apply (filter_nil_not_elem_of _ _ (mark_deleted now r) Hfirst).
      * done.
      * apply update_where_elem. exists r. by rewrite decide_True.
Qed.

End hidden.

Lemma soft_deleted_file_hidden_witness :
  let hello := file_record (H := plain_hashlib) hello_upload hello_txt 1 10 in
  FileViewSet.get_object 7 1
    (exec (H := plain_hashlib) (SoftDelete hello 30) hello_db)
  = Err Http404.
Proof.
  intros hello.
  apply (proj1 (soft_deleted_file_hidden (H := plain_hashlib) hello 30
                  hello_db _ _ eq_refl) 7%N).
Defined.

(** ** Manager queries *)

Section manager.
Implicit Types (table : list File.t) (db : DB).


End manager.


(** ** More on primary replicas and verification *)

Section replicas_more.
Implicit Types (self r : Chunk.t) (chunks rows : list Chunk.t).


(** X21.  [mark_as_primary] trusts the flag the instance holds.  For an
    instance whose row is stored the call completes and the instance ends
    with the flag set; the other primaries of its (file, ordinal) are
    demoted; when the instance held [is_primary = False] its rows end
    primary, and when it held [True] its rows are not written, so a row
    that was demoted after the instance was read stays demoted.  No row is
    added or removed and no column but [is_primary] is written. *)
Theorem mark_as_primary_trusts_instance self chunks :
  Exists (λ r, Chunk.id r = Chunk.id self) chunks →
  ∃ s rows,
    Chunk.mark_as_primary self chunks = Ok (s, rows)
    ∧ Chunk.is_primary s = true
    ∧ chunk_identity s = chunk_identity self
    ∧ chunk_identity <$> rows = chunk_identity <$> chunks
    ∧ Chunk.stored_checksum <$> rows = Chunk.stored_checksum <$> chunks
    ∧ Chunk.last_verified_at <$> rows = Chunk.last_verified_at <$> chunks
    ∧ (∀ r, r ∈ rows → Chunk.file r = Chunk.file self →
         Chunk.chunk_number r = Chunk.chunk_number self →
         Chunk.id r ≠ Chunk.id self → Chunk.is_primary r = false)
    ∧ (∀ i r r', chunks !! i = Some r → rows !! i = Some r' →
         Chunk.id r = Chunk.id self →
         if Chunk.is_primary self then r' = r
         else Chunk.is_primary r' = true).
Proof.
  intros Hrow.
  pose proof (mark_as_primary_unfold self chunks Hrow) as Hcall.
  assert (∀ r, Chunk.id r = Chunk.id self → ¬ Chunk.other_primaries self r)
    as Hself by (unfold Chunk.other_primaries; tauto).
  destruct (Chunk.is_primary self) eqn:Hflag.
  - exists self, (demoted self chunks). split; [done|].
    pose proof (mark_as_primary_others _ _ _ _ Hcall) as Hothers.
    split; [done|]. split; [done|]. unfold demoted.
    rewrite !update_where_column by done.
    split; [done|]. split; [done|]. split; [done|]. split; [done|].
    intros i r r' Hr. rewrite update_where_lookup, Hr. simpl.
    intros [= <-] Hid. by rewrite decide_False by auto.
  - exists (Chunk.set_is_primary true self),
      (promoted self (demoted self chunks)). split; [done|].
    pose proof (mark_as_primary_others _ _ _ _ Hcall) as Hothers.
    split; [done|]. split; [done|]. unfold promoted, demoted.
    rewrite !update_where_column by done.
    split; [done|]. split; [done|]. split; [done|]. split; [done|].
    intros i r r' Hr. rewrite !update_where_lookup, Hr. simpl.
    intros [= <-] Hid.
    rewrite (decide_False (P := Chunk.other_primaries self r)) by auto.
    by rewrite decide_True.
Qed.

(** X22.  Corruption is sticky: [verify_checksum] answers whether the two
    digests are equal; on a mismatch, for a chunk whose row is stored, it
    marks every row of the chunk, and no other row, as corrupted; a match
    writes nothing, so a later check with the right digest answers true and
    leaves the chunk corrupted. *)
Theorem verify_checksum_sticky self (calculated : option string) chunks :
  (Chunk.checksum self = calculated →
   Chunk.verify_checksum self calculated chunks = Ok (true, self, chunks))
  ∧ (Chunk.checksum self ≠ calculated →
     Exists (λ r, Chunk.id r = Chunk.id self) chunks →
     ∃ rows,
       Chunk.verify_checksum self calculated chunks
       = Ok (false, Chunk.set_status Chunk.CORRUPTED self, rows)
       ∧ (∀ i r r', chunks !! i = Some r → rows !! i = Some r' →
            if decide (Chunk.id r = Chunk.id self)
            then r' = Chunk.set_status Chunk.CORRUPTED r
                 ∧ Chunk.is_corrupted r' = true
            else r' = r)
       ∧ Chunk.verify_checksum (Chunk.set_status Chunk.CORRUPTED self)
           (Chunk.checksum self) rows
         = Ok (true, Chunk.set_status Chunk.CORRUPTED self, rows)
       ∧ Chunk.is_corrupted (Chunk.set_status Chunk.CORRUPTED self) = true).
Proof.
  split.
  - intros <-. apply verify_checksum_match.
  - intros Hne Hrow. eexists. split; [by apply verify_checksum_mismatch|].
    split; [|split; [|done]].
    + intros i r r' Hr. rewrite update_where_lookup, Hr. simpl.
      intros [= <-]. by case_decide.
    + apply (verify_checksum_match (Chunk.set_status Chunk.CORRUPTED self)).
Qed.

End replicas_more.


(** The first replica was read while it was primary and demoted afterwards:
    a call on that instance leaves the stored row as it is. *)
Lemma mark_as_primary_trusts_instance_witness :
  ∃ s rows,
    Chunk.mark_as_primary replica_a
      [Chunk.set_is_primary false replica_a; replica_b]
    = Ok (s, rows)
    ∧ Chunk.is_primary s = true
    ∧ Chunk.is_primary <$> rows = [false; false].
Proof.
  destruct (mark_as_primary_trusts_instance replica_a
              [Chunk.set_is_primary false replica_a; replica_b])
    as (s & rows & Hcall & Hflag & _).
  - apply Exists_cons_hd. reflexivity.
  - exists s, rows. split; [exact Hcall|]. split; [exact Hflag|].
    by injection Hcall as _ <-.
Defined.

Lemma verify_checksum_sticky_witness :
  ∃ rows,
    Chunk.verify_checksum replica_a (Some "0ther") [replica_a; replica_b]
    = Ok (false, Chunk.set_status Chunk.CORRUPTED replica_a, rows)
    ∧ Chunk.verify_checksum (Chunk.set_status Chunk.CORRUPTED replica_a)
        (Some "c0ffee") rows
      = Ok (true, Chunk.set_status Chunk.CORRUPTED replica_a, rows).
Proof.
  destruct (proj2 (verify_checksum_sticky replica_a (Some "0ther")
                     [replica_a; replica_b]))
    as (rows & Hcall & _ & Hlater & _).
  - discriminate.
  - apply Exists_cons_hd. reflexivity.
  - exists rows. split; [exact Hcall|exact Hlater].
Defined.

(** ** Restoring a version: who may, and how it fails *)

Section restore_errors.
Implicit Types (db : DB).

Lemma version_get_object_Err user pk db e :
  FileVersionViewSet.get_object user pk db = Err e →
  e = Http404
  ∧ ¬ ∃ v f, v ∈ versions db ∧ FileVersion.id v = pk ∧ f ∈ files db
             ∧ File.id f = FileVersion.file v ∧ File.user f = Some user.
Proof.
  unfold FileVersionViewSet.get_object, FileVersion.get,
    FileVersionViewSet.get_queryset.
  destruct (get_by_pk _ _ _) as [v0|] eqn:Hget; [done|].
  intros [= <-]. split; [done|].
  intros (v & f & Hv & Hid & Hf & Hfile & Huser).
  apply get_by_pk_None in Hget. apply Hget, Exists_exists. exists v.
  split; [|done]. apply list_elem_of_filter. split; [|done].
  apply Exists_exists. eauto.
Qed.

Lemma version_get_object_owned user pk db v :
  FileVersionViewSet.get_object user pk db = Ok v →
  ∃ f, f ∈ files db ∧ File.id f = FileVersion.file v
       ∧ File.user f = Some user.
Proof.
  unfold FileVersionViewSet.get_object, FileVersion.get,
    FileVersionViewSet.get_queryset.
  destruct (get_by_pk _ _ _) as [v0|] eqn:Hget; [|done].
  intros [= ->]. apply get_by_pk_Some in Hget as [Hin _].
  apply list_elem_of_filter in Hin as [Howned _].
  apply Exists_exists in Howned as (f & Hf & Hfile & Huser). eauto.
Qed.

(** X23.  Restoring a version needs a file of the requester, deleted or
    not: [restore] answers 404 exactly when no version of that key
    belongs to a file the requester owns (soft deletion is not looked
    at); the only other way it fails is [IntegrityError], raised exactly
    when the restored digest would give the file the name, checksum and
    owner of another stored file; every failure leaves the database as
    it was. *)
Theorem version_restore_errors user pk db :
  ((FileVersionViewSet.restore user pk db).1 = Err Http404
   ↔ ¬ ∃ v f, v ∈ versions db ∧ FileVersion.id v = pk ∧ f ∈ files db
              ∧ File.id f = FileVersion.file v ∧ File.user f = Some user)
  ∧ (∀ e, (FileVersionViewSet.restore user pk db).1 = Err e →
       (e = Http404 ∨ e = IntegrityError)
       ∧ (FileVersionViewSet.restore user pk db).2 = db)
  ∧ (∀ version,
       FileVersionViewSet.get_object user pk db = Ok version →
       ((FileVersionViewSet.restore user pk db).1 = Err IntegrityError
        ↔ ∃ r r', r ∈ files db ∧ r' ∈ files db
            ∧ File.id r = FileVersion.file version
            ∧ File.unique_clash (roll_back version r) r')).
Proof.
  unfold FileVersionViewSet.restore.
  destruct (FileVersionViewSet.get_object user pk db) as [version|e0]
    eqn:Hget; simpl.
  - pose proof (version_get_object_owned _ _ _ _ Hget)
      as (f & Hf & Hfile & Huser).
    pose proof (version_get_object_Ok _ _ _ _ Hget) as [Hversion Hid].
    assert (Exists (λ r, File.id r = FileVersion.file version) (files db))
      as Hrow by (apply Exists_exists; eauto).
    unfold FileVersion.restore, File.get.
    destruct (get_by_pk File.id _ (files db)) as [f0|] eqn:Hf0;
      [|by apply get_by_pk_None in Hf0].
    apply get_by_pk_Some in Hf0 as [_ Hkey]. simpl.
    unfold File.save_size_checksum. simpl. rewrite Hkey.
    fold (roll_back version).
    case_decide as Hclash; simpl.
    + split; [split; [done|intros []; eauto 10]|].
      split; [intros e [= <-]; auto|].
      intros ? [= <-]. split; [intros _|done].
      apply Exists_exists in Hclash as (r & Hr & Hrid & Hclash).
      apply Exists_exists in Hclash as (r' & Hr' & Hclash). eauto 10.
    + rewrite save_fields_present by done. simpl.
      split; [split; [done|intros []; eauto 10]|].
      split; [done|]. intros ? [= <-]. split; [done|].
      intros (r & r' & Hr & Hr' & Hrid & Hbad). exfalso.
      apply Hclash, Exists_exists. exists r. split; [done|].
      split; [done|]. apply Exists_exists. eauto.
  - apply version_get_object_Err in Hget as [-> Hnone].
    split; [done|]. split; [intros e [= <-]; auto|]. done.
Qed.

End restore_errors.

(** User 8 tries to restore a version of a file of user 7. *)
Lemma version_restore_errors_witness :
  (FileVersionViewSet.restore 8 50 edited_db).1 = Err Http404.
Proof.
  apply (proj1 (version_restore_errors 8 50 edited_db)).
  intros (v & f & _ & _ & Hf & _ & Huser).
  assert (files edited_db
          = [File.set_checksum "edited"
               (File.set_size 9
                  (file_record (H := plain_hashlib) hello_upload hello_txt
                     1 10))]) as Hfiles by reflexivity.
  rewrite Hfiles in Hf. apply list_elem_of_singleton in Hf as ->.
  discriminate.
Defined.
